(** * py-moodle: role gate, site-info accessor and example-script cleanup

    A shallow embedding of
    - [src/py_moodle/permissions.py] ([ROLE_HIERARCHY], [get_user_role],
      [requires_role]),
    - [src/py_moodle/site.py] ([SiteFunction], [AdvancedFeature], [SiteInfo],
      [get_site_info]),
    - the [try] / [except] / [finally] skeleton of [main] in
      [example_script_with_progressbar.py],
    followed by the properties established about them. *)

From Stdlib Require Import ZArith String Ascii List Bool Lia.
From stdpp Require Import base option list strings gmap fin_maps pretty.

Local Open Scope string_scope.
Local Open Scope Z_scope.

(** ** Computations that may raise and that thread a store *)

Module Py.

(** The result of running a piece of Python code: a value or a raised
    exception of type [E]. *)
Inductive outcome (E A : Type) : Type :=
| Return (a : A)
| Raise (e : E).
Arguments Return {E A} a.
Arguments Raise {E A} e.

(** A computation over a store [S]; the store survives a raise, as Python
    side effects do. *)
Definition M (S E A : Type) : Type := S -> outcome E A * S.

Definition ret {S E A} (a : A) : M S E A := fun s => (Return a, s).

Definition raise {S E A} (e : E) : M S E A := fun s => (Raise e, s).

Definition bind {S E A B} (c : M S E A) (k : A -> M S E B) : M S E B :=
  fun s =>
    match c s with
    | (Return a, s') => k a s'
    | (Raise e, s') => (Raise e, s')
    end.

Definition is_Return {E A} (o : outcome E A) : bool :=
  match o with Return _ => true | Raise _ => false end.

End Py.

Import Py.

Notation "x <- c ;; k" := (bind c (fun x => k))
  (at level 100, c at next level, right associativity).
Notation "c ;;; k" := (bind c (fun _ => k))
  (at level 100, right associativity).

(** ** permissions.py *)

Module Permissions.

(** *** Values that reach the decorator

    Arguments of a guarded call.  [VSession i] is the instance of
    [requests.Session] with identity [i]; [VObject i] is an instance of any
    other class, compared by identity and carrying neither a [get] method
    nor a [_moodle_role] attribute. *)
Inductive value : Type :=
| VNone
| VBool (b : bool)
| VInt (z : Z)
| VStr (s : string)
| VSession (i : nat)
| VObject (i : nat).

Definition is_None (v : value) : bool :=
  match v with VNone => true | _ => false end.

(** [isinstance(arg, requests.Session)] *)
Definition isinstance_Session (v : value) : bool :=
  match v with VSession _ => true | _ => false end.

(** Python's [==] on these values: [bool] is a subclass of [int], objects
    without [__eq__] compare by identity. *)
Definition py_eq (a b : value) : bool :=
  match a, b with
  | VNone, VNone => true
  | VBool x, VBool y => Bool.eqb x y
  | VBool x, VInt y => Z.eqb (Z.b2z x) y
  | VInt x, VBool y => Z.eqb x (Z.b2z y)
  | VInt x, VInt y => Z.eqb x y
  | VStr x, VStr y => String.eqb x y
  | VSession x, VSession y => Nat.eqb x y
  | VObject x, VObject y => Nat.eqb x y
  | _, _ => false
  end.

(** Truth value, as tested by [if cached:]. *)
Definition truthy (v : value) : bool :=
  match v with
  | VNone => false
  | VBool b => b
  | VInt z => negb (Z.eqb z 0)
  | VStr s => negb (String.eqb s "")
  | VSession _ | VObject _ => true
  end.

(** Exceptions that the module raises or lets through. *)
Inductive exn : Type :=
| RoleError (msg : string)
| KeyError (key : value)
| AttributeError (attr : string)
| HTTPError (status : Z)
| RequestException
| OtherError (name : string).

(** The class of an exception, which is what an [except] clause tests. *)
Inductive exn_class : Type :=
| CRoleError | CKeyError | CAttributeError | CHTTPError
| CRequestException | COtherError (name : string).

Definition class_of (e : exn) : exn_class :=
  match e with
  | RoleError _ => CRoleError
  | KeyError _ => CKeyError
  | AttributeError _ => CAttributeError
  | HTTPError _ => CHTTPError
  | RequestException => CRequestException
  | OtherError n => COtherError n
  end.

(** *** The store and the outside world *)

Inductive event : Type :=
| EvGet (session : nat) (url : string)   (* session.get(url) was issued *)
| EvCall.                                (* the wrapped function was entered *)

Definition is_get (e : event) : bool :=
  match e with EvGet _ _ => true | EvCall => false end.

(** [role_attr] holds the [_moodle_role] attribute of every session object
    that has one; [trace] lists the events so far, oldest first. *)
Record world : Type := World {
  role_attr : gmap nat value;
  trace : list event
}.

Definition http_requests (w : world) : list event := filter is_get (trace w).

(** How many times a wrapped function has been entered. *)
Definition invocations (w : world) : nat :=
  length (filter (fun e => negb (is_get e)) (trace w)).

Record response : Type := Response { status_code : Z; text : string }.

(** What lies outside the program: how the platform answers a GET, given
    everything that happened before ([None]: the transport raised), and the
    text the interpreter prints for an object. *)
Record env : Type := Env {
  http : list event -> nat -> string -> option response;
  repr : nat -> string
}.

Abbreviation comp := (M world exn).

(** *** ROLE_HIERARCHY *)

Definition ROLE_HIERARCHY : gmap string Z :=
  {[ "user" := 0; "manager" := 1; "admin" := 2 ]}.

(** The three hierarchy levels, lowest first. *)
Definition roles : list string := ["user"; "manager"; "admin"].

(** [ROLE_HIERARCHY[key]] *)
Definition hierarchy_getitem (key : value) : comp Z :=
  match key with
  | VStr s =>
      match ROLE_HIERARCHY !! s with
      | Some n => ret n
      | None => raise (KeyError key)
      end
  | _ => raise (KeyError key)
  end.

(** *** String helpers *)

Definition dquote : string := String (ascii_of_nat 34) EmptyString.

(** The marker [data-key="siteadminnode"]. *)
Definition admin_marker : string :=
  "data-key=" ++ dquote ++ "siteadminnode" ++ dquote.

(** [needle in hay] on strings. *)
Fixpoint contains (needle hay : string) : bool :=
  String.prefix needle hay ||
  match hay with
  | EmptyString => false
  | String _ rest => contains needle rest
  end.

(** [str(v)], as an f-string formats a value. *)
Definition py_str (E : env) (v : value) : string :=
  match v with
  | VNone => "None"
  | VBool true => "True"
  | VBool false => "False"
  | VInt z => pretty z
  | VStr s => s
  | VSession i | VObject i => repr E i
  end.

(** A 4xx or 5xx status, for which [raise_for_status] raises. *)
Definition is_error_status (status : Z) : bool :=
  (400 <=? status) && (status <? 600).

Definition dashboard_url (E : env) (base_url : value) : string :=
  py_str E base_url ++ "/my/".

Definition management_url (E : env) (base_url : value) : string :=
  py_str E base_url ++ "/course/management.php".

(** *** get_user_role *)

Section WithEnv.
Variable E : env.

(** [getattr(session, "_moodle_role", None)] *)
Definition getattr_moodle_role (session : value) : comp value :=
  fun w =>
    match session with
    | VSession i => (Return (default VNone (role_attr w !! i)), w)
    | _ => (Return VNone, w)
    end.

(** [setattr(session, "_moodle_role", role)]; [get_user_role] gets here
    only with a session object, [session.get] having succeeded before. *)
Definition setattr_moodle_role (session : value) (role : value) : comp unit :=
  fun w =>
    match session with
    | VSession i =>
        (Return tt, World (<[i := role]> (role_attr w)) (trace w))
    | _ => (Raise (AttributeError "_moodle_role"), w)
    end.

(** [session.get(url)] *)
Definition session_get (session : value) (url : string) : comp response :=
  fun w =>
    match session with
    | VSession i =>
        let w' := World (role_attr w) (trace w ++ [EvGet i url]) in
        match http E (trace w) i url with
        | Some r => (Return r, w')
        | None => (Raise RequestException, w')
        end
    | _ => (Raise (AttributeError "get"), w)
    end.

(** [resp.raise_for_status()] *)
Definition raise_for_status (resp : response) : comp unit :=
  if is_error_status (status_code resp)
  then raise (HTTPError (status_code resp))
  else ret tt.

Definition get_user_role (session base_url : value) : comp value :=
  cached <- getattr_moodle_role session ;;
  if truthy cached then ret cached
  else
    resp <- session_get session (dashboard_url E base_url) ;;
    raise_for_status resp ;;;
    role <- (if contains admin_marker (text resp) then ret "admin"
             else
               manage_resp <- session_get session
                                (management_url E base_url) ;;
               ret (if status_code manage_resp =? 200
                    then "manager" else "user")) ;;
    setattr_moodle_role session (VStr role) ;;;
    ret (VStr role).

(** *** requires_role *)

Definition config_msg : string :=
  "Session and base_url are required for role verification.".

Definition denied_msg (required current_role : string) : string :=
  "Operation requires role '" ++ required ++ "', current role is '"
  ++ current_role ++ "'.".

(** [kwargs.get(name)] *)
Definition kwargs_get (kwargs : gmap string value) (name : string) : value :=
  default VNone (kwargs !! name).

(** [list(args).index(x)]; [None] stands for [ValueError]. *)
Fixpoint list_index (args : list value) (x : value) : option nat :=
  match args with
  | [] => None
  | a :: rest =>
      if py_eq a x then Some 0%nat else S <$> list_index rest x
  end.

(** Lines 64-71: the session is the keyword argument of that name or,
    failing that, the first positional [requests.Session]. *)
Definition locate_session (args : list value) (kwargs : gmap string value)
  : value :=
  let session := kwargs_get kwargs "session" in
  if is_None session
  then default VNone (List.find isinstance_Session args)
  else session.

(** Lines 65 and 73-79: the base URL is the keyword argument of that name
    or, failing that, the positional argument right after the session. *)
Definition locate_base_url (args : list value) (kwargs : gmap string value)
    (session : value) : value :=
  let base_url := kwargs_get kwargs "base_url" in
  if is_None base_url && negb (is_None session)
  then
    match list_index args session with
    | Some idx =>
        if (idx + 1 <? length args)%nat
        then default VNone (args !! (idx + 1)%nat)
        else base_url
    | None => base_url
    end
  else base_url.

(** A wrapped function: any computation of the positional and keyword
    arguments. *)
Definition pyfunc : Type :=
  list value -> gmap string value -> comp value.

(** The call of [func] with the wrapper's own arguments (line 91), observed
    in the trace. *)
Definition call (func : pyfunc) (args : list value)
    (kwargs : gmap string value) : comp value :=
  fun w => func args kwargs (World (role_attr w) (trace w ++ [EvCall])).

(** Lines 64-90 of [wrapper]: everything before the call of [func]. *)
Definition role_check (required : string) (args : list value)
    (kwargs : gmap string value) : comp unit :=
  let session := locate_session args kwargs in
  let base_url := locate_base_url args kwargs session in
  if is_None session || is_None base_url
  then raise (RoleError config_msg)
  else
    current_role <- get_user_role session base_url ;;
    have <- hierarchy_getitem current_role ;;
    need <- hierarchy_getitem (VStr required) ;;
    if have <? need
    then raise (RoleError (denied_msg required (py_str E current_role)))
    else ret tt.

(** [requires_role(required)(func)], the [wrapper] closure. *)
Definition requires_role (required : string) (func : pyfunc) : pyfunc :=
  fun args kwargs =>
    role_check required args kwargs ;;;
    call func args kwargs.

End WithEnv.

(** *** Sample inputs *)

Module Samples.

(** A platform that answers every GET with the given status and body. *)
Definition constant_env (status : Z) (body : string) : env :=
  Env (fun _ _ _ => Some (Response status body)) (fun _ => "<object>").

Definition fresh : world := World ∅ [].

Definition site : value := VStr "https://moodle.example".

(** A platform on which the caller sees a plain dashboard and is refused
    the course-management page. *)
Definition student_env : env :=
  Env (fun _ _ url =>
         Some (if contains "/course/management.php" url
               then Response 403 "" else Response 200 "<html></html>"))
      (fun _ => "<object>").

(** The world after that caller's first role lookup on session 0. *)
Definition student_world : world :=
  World {[ 0%nat := VStr "user" ]}
        [ EvGet 0 "https://moodle.example/my/";
          EvGet 0 "https://moodle.example/course/management.php" ].

(** [def dummy(session, base_url): return 1], as in the tests. *)
Definition dummy : pyfunc := fun _ _ => ret (VInt 1).

End Samples.

End Permissions.


(** ** site.py *)

Module Site.

(** *** Values

    What the web-service call hands back (decoded JSON) and what
    [get_site_info] stores into it: instances of the two small dataclasses.
    A dataclass does not check the types of its fields, so every field holds
    an arbitrary value. *)
#[warnings="-register-all"]
Inductive pyval : Type :=
| PNone
| PBool (b : bool)
| PInt (z : Z)
| PFloat (literal : string)
| PStr (s : string)
| PList (l : list pyval)
| PDict (d : gmap string pyval)
| PSiteFunction (name version : pyval)
| PAdvancedFeature (name value : pyval).

Inductive type_error : Type :=
| NotSubscriptable
| NotIterable
| NotAMapping
| UnexpectedKeyword (cls : string)
| MissingArguments (cls : string) (names : list string).

Inductive exn : Type :=
| KeyError (key : string)
| TypeError (why : type_error)
| CallError (name : string).

(** The store is the list of web-service functions called so far, oldest
    first. *)
Abbreviation comp := (M (list string) exn).

(** [MoodleSession.call] lives in [py_moodle/session.py]; its answer is taken
    as given: a decoded response or an exception, possibly depending on the
    calls made before. *)
Definition session_t : Type := list string -> string -> outcome exn pyval.

(** [session.call(wsfunction)] *)
Definition session_call (session : session_t) (wsfunction : string)
  : comp pyval :=
  fun calls : list string =>
    (session calls wsfunction, (calls ++ [wsfunction])%list).

(** *** The dataclasses *)

Definition SiteFunction_fields : list string := ["name"; "version"].

Definition AdvancedFeature_fields : list string := ["name"; "value"].

Record SiteInfo : Type := mkSiteInfo {
  sitename : pyval;
  username : pyval;
  firstname : pyval;
  lastname : pyval;
  fullname : pyval;
  lang : pyval;
  userid : pyval;
  siteurl : pyval;
  userpictureurl : pyval;
  functions : pyval;
  downloadfiles : pyval;
  uploadfiles : pyval;
  release : pyval;
  version : pyval;
  mobilecssurl : pyval;
  advancedfeatures : pyval;
  usercanmanageownfiles : pyval;
  userquota : pyval;
  usermaxuploadfilesize : pyval;
  userhomepage : pyval;
  userprivateaccesskey : pyval;
  siteid : pyval;
  sitecalendartype : pyval;
  usercalendartype : pyval;
  userissiteadmin : pyval;
  theme : pyval;
  limitconcurrentlogins : pyval;
  policyagreed : pyval
}.

Definition SiteInfo_fields : list string :=
  [ "sitename"; "username"; "firstname"; "lastname"; "fullname"; "lang";
    "userid"; "siteurl"; "userpictureurl"; "functions"; "downloadfiles";
    "uploadfiles"; "release"; "version"; "mobilecssurl"; "advancedfeatures";
    "usercanmanageownfiles"; "userquota"; "usermaxuploadfilesize";
    "userhomepage"; "userprivateaccesskey"; "siteid"; "sitecalendartype";
    "usercalendartype"; "userissiteadmin"; "theme"; "limitconcurrentlogins";
    "policyagreed" ].

(** Keyword arguments that name no parameter of the generated [__init__]. *)
Definition unexpected (fields : list string) (kw : gmap string pyval)
  : list string :=
  filter (fun k => k ∉ fields) (fst <$> map_to_list kw).

(** Parameters of the generated [__init__] that received no argument; no
    field of these classes has a default. *)
Definition missing (fields : list string) (kw : gmap string pyval)
  : list string :=
  filter (fun f => kw !! f = None) fields.

(** Argument binding when a dataclass [cls] is called with the keyword
    arguments [kw]: an unknown keyword is reported first, then the parameters
    left without a value. *)
Definition bind_arguments (cls : string) (fields : list string)
    (kw : gmap string pyval) : comp unit :=
  match unexpected fields kw with
  | _ :: _ => raise (TypeError (UnexpectedKeyword cls))
  | [] =>
      match missing fields kw with
      | [] => ret tt
      | names => raise (TypeError (MissingArguments cls names))
      end
  end.

(** [obj[key]] *)
Definition getitem (obj : pyval) (key : string) : comp pyval :=
  match obj with
  | PDict d =>
      match d !! key with
      | Some v => ret v
      | None => raise (KeyError key)
      end
  | _ => raise (TypeError NotSubscriptable)
  end.

(** [obj[key] = v] *)
Definition setitem (obj : pyval) (key : string) (v : pyval) : comp pyval :=
  match obj with
  | PDict d => ret (PDict (<[key := v]> d))
  | _ => raise (TypeError NotSubscriptable)
  end.

(** The operand of a double-star argument: only a mapping is accepted. *)
Definition as_mapping (v : pyval) : comp (gmap string pyval) :=
  match v with
  | PDict d => ret d
  | _ => raise (TypeError NotAMapping)
  end.

Fixpoint chars (s : string) : list pyval :=
  match s with
  | EmptyString => []
  | String c rest => PStr (String c EmptyString) :: chars rest
  end.

(** The elements a [for] clause draws from a value: the items of a list, the
    keys of a mapping, the characters of a string; nothing else here can be
    iterated. *)
Definition elements (v : pyval) : option (list pyval) :=
  match v with
  | PList l => Some l
  | PDict d => Some ((fun kv => PStr (fst kv)) <$> map_to_list d)
  | PStr s => Some (chars s)
  | _ => None
  end.

Definition iterate (v : pyval) : comp (list pyval) :=
  match elements v with
  | Some l => ret l
  | None => raise (TypeError NotIterable)
  end.

(** [SiteFunction] called with the items of [function] as keywords. *)
Definition new_SiteFunction (function : pyval) : comp pyval :=
  kw <- as_mapping function ;;
  bind_arguments "SiteFunction" SiteFunction_fields kw ;;;
  ret (PSiteFunction (default PNone (kw !! "name"))
                     (default PNone (kw !! "version"))).

(** [AdvancedFeature] called with the items of [feature] as keywords. *)
Definition new_AdvancedFeature (feature : pyval) : comp pyval :=
  kw <- as_mapping feature ;;
  bind_arguments "AdvancedFeature" AdvancedFeature_fields kw ;;;
  ret (PAdvancedFeature (default PNone (kw !! "name"))
                        (default PNone (kw !! "value"))).

(** [[f(x) for x in xs]], left to right, stopping at the first raise. *)
Fixpoint comprehension (f : pyval -> comp pyval) (xs : list pyval)
  : comp (list pyval) :=
  match xs with
  | [] => ret []
  | x :: rest =>
      y <- f x ;;
      ys <- comprehension f rest ;;
      ret (y :: ys)
  end.

(** [SiteInfo] called with the items of [response] as keywords. *)
Definition new_SiteInfo (response : pyval) : comp SiteInfo :=
  kw <- as_mapping response ;;
  bind_arguments "SiteInfo" SiteInfo_fields kw ;;;
  let arg name := default PNone (kw !! name) in
  ret {| sitename := arg "sitename";
         username := arg "username";
         firstname := arg "firstname";
         lastname := arg "lastname";
         fullname := arg "fullname";
         lang := arg "lang";
         userid := arg "userid";
         siteurl := arg "siteurl";
         userpictureurl := arg "userpictureurl";
         functions := arg "functions";
         downloadfiles := arg "downloadfiles";
         uploadfiles := arg "uploadfiles";
         release := arg "release";
         version := arg "version";
         mobilecssurl := arg "mobilecssurl";
         advancedfeatures := arg "advancedfeatures";
         usercanmanageownfiles := arg "usercanmanageownfiles";
         userquota := arg "userquota";
         usermaxuploadfilesize := arg "usermaxuploadfilesize";
         userhomepage := arg "userhomepage";
         userprivateaccesskey := arg "userprivateaccesskey";
         siteid := arg "siteid";
         sitecalendartype := arg "sitecalendartype";
         usercalendartype := arg "usercalendartype";
         userissiteadmin := arg "userissiteadmin";
         theme := arg "theme";
         limitconcurrentlogins := arg "limitconcurrentlogins";
         policyagreed := arg "policyagreed" |}.

(** [site_info.__dict__.items()], which [cli/site.py] walks: the fields in
    declaration order. *)
Definition SiteInfo_items (info : SiteInfo) : list (string * pyval) :=
  [ ("sitename", sitename info);
    ("username", username info);
    ("firstname", firstname info);
    ("lastname", lastname info);
    ("fullname", fullname info);
    ("lang", lang info);
    ("userid", userid info);
    ("siteurl", siteurl info);
    ("userpictureurl", userpictureurl info);
    ("functions", functions info);
    ("downloadfiles", downloadfiles info);
    ("uploadfiles", uploadfiles info);
    ("release", release info);
    ("version", version info);
    ("mobilecssurl", mobilecssurl info);
    ("advancedfeatures", advancedfeatures info);
    ("usercanmanageownfiles", usercanmanageownfiles info);
    ("userquota", userquota info);
    ("usermaxuploadfilesize", usermaxuploadfilesize info);
    ("userhomepage", userhomepage info);
    ("userprivateaccesskey", userprivateaccesskey info);
    ("siteid", siteid info);
    ("sitecalendartype", sitecalendartype info);
    ("usercalendartype", usercalendartype info);
    ("userissiteadmin", userissiteadmin info);
    ("theme", theme info);
    ("limitconcurrentlogins", limitconcurrentlogins info);
    ("policyagreed", policyagreed info) ].

(** [site_info.__dict__] *)
Definition SiteInfo_dict (info : SiteInfo) : gmap string pyval :=
  list_to_map (SiteInfo_items info).

(** *** get_site_info *)

Definition wsfunction_site_info : string := "core_webservice_get_site_info".

Definition get_site_info (session : session_t) : comp SiteInfo :=
  response <- session_call session wsfunction_site_info ;;
  raw_functions <- getitem response "functions" ;;
  elems <- iterate raw_functions ;;
  functions <- comprehension new_SiteFunction elems ;;
  response <- setitem response "functions" (PList functions) ;;
  raw_features <- getitem response "advancedfeatures" ;;
  elems <- iterate raw_features ;;
  features <- comprehension new_AdvancedFeature elems ;;
  response <- setitem response "advancedfeatures" (PList features) ;;
  new_SiteInfo response.

(** [kw] names exactly the declared fields: no other key, none left out. *)
Definition accepts (fields : list string) (kw : gmap string pyval) : Prop :=
  (forall k, is_Some (kw !! k) -> k ∈ fields)
  /\ (forall f, f ∈ fields -> is_Some (kw !! f)).

(** A raw list element and the record it is turned into. *)
Definition is_SiteFunction_of (raw record : pyval) : Prop :=
  exists name version : pyval,
    raw = PDict {[ "name" := name; "version" := version ]}
    /\ record = PSiteFunction name version.

Definition is_AdvancedFeature_of (raw record : pyval) : Prop :=
  exists name value : pyval,
    raw = PDict {[ "name" := name; "value" := value ]}
    /\ record = PAdvancedFeature name value.

(** *** Sample inputs *)

Module Samples.

(** A complete answer of the platform, with one function and one feature. *)
Definition full_response : gmap string pyval :=
  list_to_map
    [ ("sitename", PStr "Moodle");
      ("username", PStr "admin");
      ("firstname", PStr "Admin");
      ("lastname", PStr "User");
      ("fullname", PStr "Admin User");
      ("lang", PStr "en");
      ("userid", PInt 2);
      ("siteurl", PStr "https://moodle.example");
      ("userpictureurl", PStr "https://moodle.example/pix/u/f1.png");
      ("functions",
        PList [PDict {[ "name" := PStr "core_course_get_courses";
                        "version" := PStr "2024100700" ]}]);
      ("downloadfiles", PInt 1);
      ("uploadfiles", PInt 1);
      ("release", PStr "4.5");
      ("version", PStr "2024100700");
      ("mobilecssurl", PStr "");
      ("advancedfeatures",
        PList [PDict {[ "name" := PStr "usecomments"; "value" := PInt 1 ]}]);
      ("usercanmanageownfiles", PBool true);
      ("userquota", PInt 0);
      ("usermaxuploadfilesize", PInt (-1));
      ("userhomepage", PInt 1);
      ("userprivateaccesskey", PStr "key");
      ("siteid", PInt 1);
      ("sitecalendartype", PStr "gregorian");
      ("usercalendartype", PStr "gregorian");
      ("userissiteadmin", PBool true);
      ("theme", PStr "boost");
      ("limitconcurrentlogins", PInt 0);
      ("policyagreed", PInt 0) ].

(** The record [get_site_info] is expected to build from it. *)
Definition full_info : SiteInfo :=
  {| sitename := PStr "Moodle";
     username := PStr "admin";
     firstname := PStr "Admin";
     lastname := PStr "User";
     fullname := PStr "Admin User";
     lang := PStr "en";
     userid := PInt 2;
     siteurl := PStr "https://moodle.example";
     userpictureurl := PStr "https://moodle.example/pix/u/f1.png";
     functions :=
       PList [PSiteFunction (PStr "core_course_get_courses")
                            (PStr "2024100700")];
     downloadfiles := PInt 1;
     uploadfiles := PInt 1;
     release := PStr "4.5";
     version := PStr "2024100700";
     mobilecssurl := PStr "";
     advancedfeatures := PList [PAdvancedFeature (PStr "usecomments") (PInt 1)];
     usercanmanageownfiles := PBool true;
     userquota := PInt 0;
     usermaxuploadfilesize := PInt (-1);
     userhomepage := PInt 1;
     userprivateaccesskey := PStr "key";
     siteid := PInt 1;
     sitecalendartype := PStr "gregorian";
     usercalendartype := PStr "gregorian";
     userissiteadmin := PBool true;
     theme := PStr "boost";
     limitconcurrentlogins := PInt 0;
     policyagreed := PInt 0 |}.

(** A session whose every call is answered with the given mapping. *)
Definition answering (d : gmap string pyval) : session_t :=
  fun _ _ => Return (PDict d).

End Samples.

End Site.


(** ** example_script_with_progressbar.py *)

Module ExampleScript.

(** [Error]: an instance of a subclass of [Exception], named by its class.
    [Interrupt]: [KeyboardInterrupt], [SystemExit] and the like, which derive
    from [BaseException] only and which [except Exception] lets through. *)
Inductive exn : Type :=
| Error (cls : string)
| Interrupt (cls : string).

Definition isinstance_Exception (e : exn) : bool :=
  match e with Error _ => true | Interrupt _ => false end.

(** [isinstance(e, MoodleSessionError)], which is what
    [except MoodleSessionError] tests: the class itself or one that derives
    from it.  [derived] names the classes deriving from it; they are declared
    in [py_moodle/session.py] and elsewhere, outside this file. *)
Definition isinstance_MoodleSessionError (derived : list string) (e : exn)
  : bool :=
  match e with
  | Error cls =>
      String.eqb cls "MoodleSessionError" || bool_decide (cls ∈ derived)
  | Interrupt _ => false
  end.

(** What [console.print] is given, up to the markup. *)
Inductive message : Type :=
| MsgStarting
| MsgNoFixtures
| MsgLoginError (e : exn)
| MsgCreating (course_num : nat)
| MsgCreated (course_id : Z)
| MsgExecutionError (e : exn)
| MsgCleanupPhase
| MsgDeleting (course_id : Z)
| MsgDeleted (course_id : Z)
| MsgDeleteError (course_id : Z) (e : exn)
| MsgCleanupCompleted.

Inductive event : Type :=
| EvPrint (m : message)
| EvLogin
| EvCreate (course_num : nat)
| EvPopulate (course_id : Z)
| EvDelete (course_id : Z).

(** The local variable [created_course_ids] and what the script has done so
    far, oldest first. *)
Record state : Type := State {
  created_course_ids : list Z;
  log : list event
}.

Abbreviation comp := (M state exn).

(** The library calls of the script are code outside this file; each answers
    as the platform decides, possibly depending on what happened before.
    [populate] stands for the rest of the loop body after the course is
    recorded (steps 2 to 7, with their own handlers);
    [session_error_classes] names the exception classes of the library that
    derive from [MoodleSessionError]. *)
Record platform : Type := Platform {
  fixtures_is_dir : bool;
  login : list event -> outcome exn unit;
  create_course : list event -> nat -> outcome exn Z;
  populate : list event -> Z -> outcome exn unit;
  delete_course : list event -> Z -> outcome exn unit;
  session_error_classes : list string
}.

Definition NUM_COURSES_TO_CREATE : nat := 1.

Definition emit (ev : event) : comp unit :=
  fun s => (Return tt, State (created_course_ids s) (log s ++ [ev])).

Definition console_print (m : message) : comp unit := emit (EvPrint m).

(** An outside call: recorded, then answered. *)
Definition external {A} (ev : event) (answer : list event -> outcome exn A)
  : comp A :=
  fun s => (answer (log s), State (created_course_ids s) (log s ++ [ev])).

(** [created_course_ids.append(course_id)] *)
Definition append_created (course_id : Z) : comp unit :=
  fun s => (Return tt, State (created_course_ids s ++ [course_id]) (log s)).

(** [try: body / except <class> as e: handler e] *)
Definition try_except {A} (body : comp A) (catches : exn -> bool)
    (handler : exn -> comp A) : comp A :=
  fun s =>
    match body s with
    | (Raise e, s') => if catches e then handler e s' else (Raise e, s')
    | other => other
    end.

(** [try: body / finally: final]: [final] always runs; an exception of
    [final] replaces the outcome of [body]. *)
Definition try_finally {A} (body : comp A) (final : comp unit) : comp A :=
  fun s =>
    match body s with
    | (r, s') =>
        match final s' with
        | (Return _, s'') => (r, s'')
        | (Raise e, s'') => (Raise e, s'')
        end
    end.

Section WithPlatform.
Variable P : platform.

(** Lines 144-319: the [for] loop of the main phase. *)
Fixpoint main_loop (indices : list nat) : comp unit :=
  match indices with
  | [] => ret tt
  | i :: rest =>
      let course_num := (i + 1)%nat in
      console_print (MsgCreating course_num) ;;;
      course_id <- external (EvCreate course_num)
                     (fun l => create_course P l course_num) ;;
      append_created course_id ;;;
      console_print (MsgCreated course_id) ;;;
      external (EvPopulate course_id) (fun l => populate P l course_id) ;;;
      main_loop rest
  end.

Definition main_phase : comp unit := main_loop (seq 0 NUM_COURSES_TO_CREATE).

(** Lines 328-338: one guarded deletion per recorded course. *)
Fixpoint delete_each (ids : list Z) : comp unit :=
  match ids with
  | [] => ret tt
  | course_id :: rest =>
      try_except
        (console_print (MsgDeleting course_id) ;;;
         external (EvDelete course_id) (fun l => delete_course P l course_id) ;;;
         console_print (MsgDeleted course_id))
        isinstance_Exception
        (fun e => console_print (MsgDeleteError course_id e)) ;;;
      delete_each rest
  end.

(** Lines 325-339: the [finally] block. *)
Definition cleanup : comp unit :=
  fun s =>
    match created_course_ids s with
    | [] => (Return tt, s)
    | ids =>
        (console_print MsgCleanupPhase ;;;
         delete_each ids ;;;
         console_print MsgCleanupCompleted) s
    end.

(** Lines 142-339: main phase, its handler and the cleanup. *)
Definition guarded_run : comp unit :=
  try_finally
    (try_except main_phase isinstance_Exception
       (fun e => console_print (MsgExecutionError e)))
    cleanup.

(** [main()] *)
Definition main : comp unit :=
  console_print MsgStarting ;;;
  if negb (fixtures_is_dir P) then console_print MsgNoFixtures
  else
    logged_in <- try_except
                   (external EvLogin (login P) ;;; ret true)
                   (isinstance_MoodleSessionError (session_error_classes P))
                   (fun e => console_print (MsgLoginError e) ;;; ret false) ;;
    if negb logged_in then ret tt
    else
      (fun s => guarded_run (State [] (log s))).

End WithPlatform.

(** The course IDs for which [delete_course] was called, in order. *)
Definition delete_attempts (l : list event) : list Z :=
  omap (fun ev => match ev with EvDelete c => Some c | _ => None end) l.

(** *** Sample inputs *)

Module Samples.

(** A platform on which the course is created with ID 42, filling it fails
    half-way and the deletion fails too. *)
Definition failing_platform : platform :=
  {| fixtures_is_dir := true;
     login := fun _ => Return tt;
     create_course := fun _ _ => Return 42;
     populate := fun _ _ => Raise (Error "RuntimeError");
     delete_course := fun _ _ => Raise (Error "MoodleCourseError");
     session_error_classes := [] |}.

Definition start : state := State [] [].

End Samples.

End ExampleScript.


(** ** Further notions used by the properties *)

Module PermissionsAux.
Import Permissions.

(** Every usable cached role is one of the three hierarchy levels. *)
Definition cache_valid (w : world) : Prop :=
  forall (i : nat) (c : value),
    role_attr w !! i = Some c -> truthy c = true ->
    exists r : string, c = VStr r /\ r ∈ roles.

(** The event is a GET issued through session [i]. *)
Definition is_get_of (i : nat) (ev : event) : Prop :=
  exists url : string, ev = EvGet i url.

(** A world in which session 0 has been seen as a manager. *)
Definition manager_world : world :=
  World {[ 0%nat := VStr "manager" ]} [].

End PermissionsAux.

(** ** cli/site.py *)

Module SiteCli.
Import Site.

(** What [console.print] is given: the JSON text, or the table with its
    title, its column headers and its rows. *)
Inductive output : Type :=
| OutText (s : string)
| OutTable (title : string) (columns : list string)
           (rows : list (string * string)).

(** The web-service calls made so far and what was printed, oldest first. *)
Record store : Type := Store {
  calls : list string;
  printed : list output
}.

Abbreviation comp := (M store exn).

(** What the command relies on from outside this file:
    [MoodleSession.get(ctx.obj["env"])], the whole [json.dumps(site_info, ...)]
    expression with its encoder, and the text [str] gives for a value that is
    not [None], a [bool], an [int] or a [str]. *)
Record context : Type := Context {
  moodle_session_get : outcome exn session_t;
  json_dumps : SiteInfo -> outcome exn string;
  repr : pyval -> string
}.

(** [str(value)] *)
Definition py_str (C : context) (v : pyval) : string :=
  match v with
  | PNone => "None"
  | PBool true => "True"
  | PBool false => "False"
  | PInt z => pretty z
  | PStr s => s
  | _ => repr C v
  end.

(** Lines 45-49: the row added for one item of [site_info.__dict__]. *)
Definition row (C : context) (item : string * pyval) : string * string :=
  match snd item with
  | PList l => (fst item, (pretty (length l) ++ " items")%string)
  | value => (fst item, py_str C value)
  end.

(** An outside answer, with no effect on the store. *)
Definition answer {A} (o : outcome exn A) : comp A := fun s => (o, s).

(** A computation of [site.py] run on the calls of the store. *)
Definition on_calls {A} (c : Site.comp A) : comp A :=
  fun s =>
    match c (calls s) with
    | (o, calls') => (o, Store calls' (printed s))
    end.

Definition console_print (o : output) : comp unit :=
  fun s => (Return tt, Store (calls s) (printed s ++ [o])).

(** The [info] command. *)
Definition info (C : context) (as_json : bool) : comp unit :=
  ms <- answer (moodle_session_get C) ;;
  site_info <- on_calls (get_site_info ms) ;;
  if as_json
  then
    text <- answer (json_dumps C site_info) ;;
    console_print (OutText text)
  else
    console_print
      (OutTable "Site Info" ["Property"; "Value"]
                (row C <$> SiteInfo_items site_info)).

(** *** Sample inputs *)

Module Samples.

Definition context_of (d : gmap string pyval) : context :=
  {| moodle_session_get := Return (Site.Samples.answering d);
     json_dumps := fun _ => Return "{}";
     repr := fun _ => "<value>" |}.

Definition start : store := Store [] [].

End Samples.

End SiteCli.

(** ** Observations on the log of the example script *)

Module ScriptAux.
Import ExampleScript.

(** The course numbers for which [create_course] was called, in order. *)
Definition create_attempts (l : list event) : list nat :=
  omap (fun ev => match ev with EvCreate n => Some n | _ => None end) l.

Definition is_delete (ev : event) : bool :=
  match ev with EvDelete _ => true | _ => false end.

(** A call of the main phase: creating or filling a course. *)
Definition is_main_call (ev : event) : bool :=
  match ev with EvCreate _ | EvPopulate _ => true | _ => false end.


(** A platform on which everything works; the course gets ID 7. *)
Definition working_platform : platform :=
  {| fixtures_is_dir := true;
     login := fun _ => Return tt;
     create_course := fun _ _ => Return 7;
     populate := fun _ _ => Return tt;
     delete_course := fun _ _ => Return tt;
     session_error_classes := [] |}.

(** A platform whose login is refused. *)
Definition refusing_platform : platform :=
  {| fixtures_is_dir := true;
     login := fun _ => Raise (Error "MoodleSessionError");
     create_course := fun _ _ => Return 7;
     populate := fun _ _ => Return tt;
     delete_course := fun _ _ => Return tt;
     session_error_classes := [] |}.

(** A platform whose login is refused with an error of a class that derives
    from [MoodleSessionError]. *)
Definition expiring_platform : platform :=
  {| fixtures_is_dir := true;
     login := fun _ => Raise (Error "MoodleTokenExpired");
     create_course := fun _ _ => Return 7;
     populate := fun _ _ => Return tt;
     delete_course := fun _ _ => Return tt;
     session_error_classes := ["MoodleTokenExpired"] |}.

(** The IDs that the [create_course] calls recorded in [evs] returned, in
    order; [before] is the log that precedes [evs], which is what each call
    was answered from. *)
Fixpoint created_by (P : platform) (before evs : list event) : list Z :=
  match evs with
  | [] => []
  | ev :: rest =>
      match ev with
      | EvCreate n =>
          match create_course P before n with
          | Return c => [c]
          | Raise _ => []
          end
      | _ => []
      end ++ created_by P (before ++ [ev]) rest
  end.

End ScriptAux.

(** * Properties *)

(** ** The role gate *)

Module PermissionsSpec.
Import Permissions.
Local Open Scope list_scope.

Lemma hierarchy_lookup (r : string) (n : Z) :
  ROLE_HIERARCHY !! r = Some n ->
  (r = "user" /\ n = 0) \/ (r = "manager" /\ n = 1) \/ (r = "admin" /\ n = 2).
Proof.
  unfold ROLE_HIERARCHY. intros H.
  destruct (decide (r = "user")) as [->|Hu]; [left; split; [done|]; vm_compute in H; congruence|].
  destruct (decide (r = "manager")) as [->|Hm]; [right; left; split; [done|]; vm_compute in H; congruence|].
  destruct (decide (r = "admin")) as [->|Ha]; [right; right; split; [done|]; vm_compute in H; congruence|].
  rewrite !lookup_insert_ne in H by done.
  by rewrite lookup_singleton_ne in H.
Qed.

Lemma hierarchy_roles (r : string) :
  r ∈ roles -> is_Some (ROLE_HIERARCHY !! r).
Proof.
  unfold roles. rewrite !elem_of_cons, elem_of_nil.
  intros [->|[->|[->|[]]]]; vm_compute; eauto.
Qed.

Example contains_marker :
  contains admin_marker
    ("<li " ++ admin_marker ++ " class=" ++ dquote ++ "node" ++ dquote ++ ">")%string
  = true.
Proof. reflexivity. Qed.

Example contains_absent : contains admin_marker "<html></html>" = false.
Proof. reflexivity. Qed.

Example list_index_bool_is_int :
  list_index [VStr "a"; VBool true; VInt 1] (VInt 1) = Some 1%nat.
Proof. reflexivity. Qed.

Example dashboard_url_of_int :
  dashboard_url Samples.student_env (VInt 8080) = "8080/my/".
Proof. vm_compute. reflexivity. Qed.

Example allows_admin :
  fst (requires_role (Samples.constant_env 200 admin_marker) "manager"
         Samples.dummy [VSession 0; Samples.site] ∅ Samples.fresh)
  = Return (VInt 1).
Proof. vm_compute. reflexivity. Qed.

Example denies_user :
  fst (requires_role Samples.student_env "manager" Samples.dummy
         [VSession 0; Samples.site] ∅ Samples.fresh)
  = Raise (RoleError
             "Operation requires role 'manager', current role is 'user'.").
Proof. vm_compute. reflexivity. Qed.

(** A session object with a usable cached role answers from the cache. *)
Lemma get_user_role_cached (E : env) (i : nat) (base_url c : value) (w : world) :
  role_attr w !! i = Some c -> truthy c = true ->
  get_user_role E (VSession i) base_url w = (Return c, w).
Proof.
  intros Hc Ht. unfold get_user_role, bind, getattr_moodle_role.
  rewrite Hc. simpl. rewrite Ht. reflexivity.
Qed.

(** Only an instance of [requests.Session] gets through [get_user_role]. *)
Lemma get_user_role_returns_session (E : env) (session base_url r : value)
    (w w1 : world) :
  get_user_role E session base_url w = (Return r, w1) ->
  exists i, session = VSession i.
Proof.
  destruct session; try (by eauto); unfold get_user_role, bind; simpl; discriminate.
Qed.

(** Without a usable cached role, the lookup is decided by the two pages. *)
Lemma get_user_role_lookup (E : env) (i : nat) (base_url : value) (w : world) :
  truthy (default VNone (role_attr w !! i)) = false ->
  get_user_role E (VSession i) base_url w =
    let dash := EvGet i (dashboard_url E base_url) in
    let mgmt := EvGet i (management_url E base_url) in
    match http E (trace w) i (dashboard_url E base_url) with
    | None => (Raise RequestException, World (role_attr w) (trace w ++ [dash]))
    | Some resp =>
        if is_error_status (status_code resp)
        then (Raise (HTTPError (status_code resp)),
              World (role_attr w) (trace w ++ [dash]))
        else if contains admin_marker (text resp)
        then (Return (VStr "admin"),
              World (<[i := VStr "admin"]> (role_attr w)) (trace w ++ [dash]))
        else
          match http E (trace w ++ [dash]) i (management_url E base_url) with
          | None => (Raise RequestException,
                     World (role_attr w) ((trace w ++ [dash]) ++ [mgmt]))
          | Some m =>
              let role := if status_code m =? 200 then "manager" else "user" in
              (Return (VStr role),
               World (<[i := VStr role]> (role_attr w))
                     ((trace w ++ [dash]) ++ [mgmt]))
          end
    end.
Proof.
  intros Hmiss.
  unfold get_user_role, bind, getattr_moodle_role. rewrite Hmiss.
  unfold session_get, raise_for_status. simpl.
  destruct (http E (trace w) i (dashboard_url E base_url)) as [resp|]; [|done].
  destruct (is_error_status (status_code resp)); [done|]. simpl.
  destruct (contains admin_marker (text resp)); [done|]. simpl.
  destruct (http E _ i (management_url E base_url)) as [m|]; done.
Qed.

(** The events [get_user_role] adds are GETs, and at most two of them. *)
Lemma get_user_role_trace (E : env) (session base_url : value) (w : world) :
  exists gets : list event,
    trace (snd (get_user_role E session base_url w)) = trace w ++ gets /\
    (length gets <= 2)%nat /\
    forallb is_get gets = true.
Proof.
  destruct session as [ | b | z | s | i | j ];
    try (exists []; unfold get_user_role, bind; simpl;
         rewrite app_nil_r; repeat split; (done || (simpl; lia))).
  destruct (truthy (default VNone (role_attr w !! i))) eqn:Hc.
  - exists []. unfold get_user_role, bind, getattr_moodle_role. rewrite Hc.
    simpl. rewrite app_nil_r. repeat split; (done || (simpl; lia)).
  - rewrite get_user_role_lookup by done. cbv zeta.
    destruct (http E (trace w) i _) as [resp|];
      [|eexists [_]; simpl; repeat split; (done || (simpl; lia))].
    destruct (is_error_status _);
      [eexists [_]; simpl; repeat split; (done || (simpl; lia))|].
    destruct (contains _ _);
      [eexists [_]; simpl; repeat split; (done || (simpl; lia))|].
    destruct (http E _ i _) as [m|];
      eexists [_; _]; simpl; rewrite <- app_assoc; repeat split; (done || lia).
Qed.

(** [get_user_role] never enters a wrapped function. *)
Lemma get_user_role_invocations (E : env) (session base_url : value) (w : world) :
  invocations (snd (get_user_role E session base_url w)) = invocations w.
Proof.
  destruct (get_user_role_trace E session base_url w) as (gets & Ht & _ & Hg).
  unfold invocations. rewrite Ht, filter_app, length_app.
  assert (filter (fun e => negb (is_get e)) gets = []) as ->; [|simpl; lia].
  clear Ht. induction gets as [|e gets IH]; [done|].
  simpl in Hg. apply andb_true_iff in Hg as [He Hg].
  rewrite filter_cons. rewrite He. simpl. auto.
Qed.


Lemma is_None_false (v : value) : v <> VNone -> is_None v = false.
Proof. by destruct v. Qed.

Lemma is_None_true (v : value) : is_None v = true <-> v = VNone.
Proof. by destruct v. Qed.

Lemma hierarchy_getitem_role (r : string) (n : Z) (w : world) :
  ROLE_HIERARCHY !! r = Some n -> hierarchy_getitem (VStr r) w = (Return n, w).
Proof. intros H. unfold hierarchy_getitem. by rewrite H. Qed.

(** What [role_check] does once both arguments are found and the lookup has
    produced a hierarchy level. *)
Lemma role_check_located (E : env) (required : string) (args : list value)
    (kwargs : gmap string value) (w w1 : world) (role : string)
    (have need : Z) :
  locate_session args kwargs <> VNone ->
  locate_base_url args kwargs (locate_session args kwargs) <> VNone ->
  get_user_role E (locate_session args kwargs)
    (locate_base_url args kwargs (locate_session args kwargs)) w
    = (Return (VStr role), w1) ->
  ROLE_HIERARCHY !! role = Some have ->
  ROLE_HIERARCHY !! required = Some need ->
  role_check E required args kwargs w =
    if have <? need
    then (Raise (RoleError (denied_msg required role)), w1)
    else (Return tt, w1).
Proof.
  intros Hs Hb Hrole Hhave Hneed.
  unfold role_check.
  rewrite (is_None_false _ Hs), (is_None_false _ Hb). simpl.
  unfold bind at 1. rewrite Hrole.
  unfold bind at 1. rewrite (hierarchy_getitem_role _ _ _ Hhave).
  unfold bind at 1. rewrite (hierarchy_getitem_role _ _ _ Hneed).
  by destruct (have <? need).
Qed.

(** C1. When the session and the base URL are located and the caller's role
    has a rank: a rank strictly below the required one makes the wrapper
    raise [RoleError] without entering the wrapped function; otherwise the
    wrapper runs the wrapped function on the original arguments and hands
    back its outcome. *)
Theorem requires_role_gate (E : env) (required : string) (func : pyfunc)
    (args : list value) (kwargs : gmap string value) (w w1 : world)
    (session base_url : value) (role : string) (have need : Z) :
  locate_session args kwargs = session ->
  locate_base_url args kwargs session = base_url ->
  session <> VNone ->
  base_url <> VNone ->
  get_user_role E session base_url w = (Return (VStr role), w1) ->
  ROLE_HIERARCHY !! role = Some have ->
  ROLE_HIERARCHY !! required = Some need ->
  (have < need ->
     requires_role E required func args kwargs w
       = (Raise (RoleError (denied_msg required role)), w1)
     /\ invocations w1 = invocations w)
  /\
  (need <= have ->
     requires_role E required func args kwargs w
       = func args kwargs (World (role_attr w1) (trace w1 ++ [EvCall]))).
Proof.
  intros <- <- Hs Hb Hrole Hhave Hneed.
  pose proof (role_check_located E required args kwargs w w1 role have need
                Hs Hb Hrole Hhave Hneed) as Hcheck.
  split; intros Hcmp; unfold requires_role, bind; rewrite Hcheck.
  - assert ((have <? need) = true) as -> by lia.
    split; [reflexivity|].
    pose proof (get_user_role_invocations E (locate_session args kwargs)
                  (locate_base_url args kwargs (locate_session args kwargs)) w)
      as Hinv.
    rewrite Hrole in Hinv. exact Hinv.
  - assert ((have <? need) = false) as -> by lia.
    reflexivity.
Qed.

(** C3. Once [get_user_role] has returned for a session object, the role it
    returned is set as the [_moodle_role] attribute of that object and is
    truthy; every later call on that object, in any world where the cached
    attribute is still the one that call left, returns that cached value and
    leaves the world as it is: no GET is issued. *)
Theorem get_user_role_memoized (E : env) (session base_url : value)
    (role : value) (w w1 : world) :
  get_user_role E session base_url w = (Return role, w1) ->
  (exists i : nat, session = VSession i /\ role_attr w1 !! i = Some role)
  /\ fst (getattr_moodle_role session w1) = Return role
  /\ truthy role = true
  /\ forall (base_url' : value) (w2 : world),
       fst (getattr_moodle_role session w2)
         = fst (getattr_moodle_role session w1) ->
       get_user_role E session base_url' w2 = (Return role, w2)
       /\ fst (get_user_role E session base_url' w2)
          = fst (getattr_moodle_role session w2)
       /\ http_requests (snd (get_user_role E session base_url' w2))
          = http_requests w2.
Proof.
  intros Hfirst.
  destruct (get_user_role_returns_session _ _ _ _ _ _ Hfirst) as [i ->].
  assert (role_attr w1 !! i = Some role /\ truthy role = true) as [Hc Ht].
  { destruct (truthy (default VNone (role_attr w !! i))) eqn:Hhit.
    - destruct (role_attr w !! i) as [c|] eqn:Hlk; [|done]. simpl in Hhit.
      rewrite (get_user_role_cached E i base_url c w Hlk Hhit) in Hfirst.
      by simplify_eq.
    - rewrite get_user_role_lookup in Hfirst by done. cbv zeta in Hfirst.
      destruct (http E (trace w) i _) as [resp|]; [|done].
      destruct (is_error_status _); [done|].
      destruct (contains _ _).
      + simplify_eq. simpl. by rewrite lookup_insert_eq.
      + destruct (http E _ i _) as [m|]; [|done].
        simplify_eq. simpl. rewrite lookup_insert_eq.
        by destruct (status_code m =? 200). }
  assert (fst (getattr_moodle_role (VSession i) w1) = Return role) as Hattr.
  { simpl. by rewrite Hc. }
  split; [by exists i|]. split; [exact Hattr|]. split; [exact Ht|].
  intros base_url' w2 Hsame.
  rewrite Hattr in Hsame.
  assert (role_attr w2 !! i = Some role) as Hc2.
  { simpl in Hsame.
    destruct (role_attr w2 !! i) as [c|]; simpl in Hsame.
    - by injection Hsame as ->.
    - injection Hsame as <-. discriminate Ht. }
  rewrite (get_user_role_cached E i base_url' role w2 Hc2 Ht).
  split; [done|]. split; [by rewrite Hsame | done].
Qed.

(** C4, the claim as stated fails: on a dashboard answered with status 500
    whose body carries the admin marker, [get_user_role] raises [HTTPError]
    instead of answering ["admin"]. *)
Lemma get_user_role_marker_on_error_page :
  http (Samples.constant_env 500 admin_marker) (trace Samples.fresh) 0
       (dashboard_url (Samples.constant_env 500 admin_marker) Samples.site)
    = Some (Response 500 admin_marker)
  /\ contains admin_marker (text (Response 500 admin_marker)) = true
  /\ get_user_role (Samples.constant_env 500 admin_marker) (VSession 0)
       Samples.site Samples.fresh
     = (Raise (HTTPError 500),
        World ∅ [EvGet 0 "https://moodle.example/my/"]).
Proof. vm_compute. repeat split. Qed.

(** C4, amended. For a session object without a usable cached role whose
    dashboard GET is answered with a status outside 400..599: a body with the
    admin marker gives ["admin"] after that single GET; otherwise a
    course-management page answered with status 200 gives ["manager"] and one
    answered with any other status gives ["user"], after two GETs.  Whatever
    is returned is one of the three hierarchy levels, and at most two GETs
    were issued. *)
Theorem get_user_role_decision (E : env) (i : nat) (base_url : value)
    (w : world) (resp : response) :
  truthy (default VNone (role_attr w !! i)) = false ->
  http E (trace w) i (dashboard_url E base_url) = Some resp ->
  is_error_status (status_code resp) = false ->
  (contains admin_marker (text resp) = true ->
     get_user_role E (VSession i) base_url w
     = (Return (VStr "admin"),
        World (<[i := VStr "admin"]> (role_attr w))
              (trace w ++ [EvGet i (dashboard_url E base_url)])))
  /\
  (contains admin_marker (text resp) = false ->
     forall m : response,
       http E (trace w ++ [EvGet i (dashboard_url E base_url)]) i
            (management_url E base_url) = Some m ->
       (status_code m = 200 ->
          get_user_role E (VSession i) base_url w
          = (Return (VStr "manager"),
             World (<[i := VStr "manager"]> (role_attr w))
                   (trace w ++ [EvGet i (dashboard_url E base_url);
                                EvGet i (management_url E base_url)])))
       /\
       (status_code m <> 200 ->
          get_user_role E (VSession i) base_url w
          = (Return (VStr "user"),
             World (<[i := VStr "user"]> (role_attr w))
                   (trace w ++ [EvGet i (dashboard_url E base_url);
                                EvGet i (management_url E base_url)]))))
  /\
  (forall (r : value) (w1 : world),
     get_user_role E (VSession i) base_url w = (Return r, w1) ->
     exists role : string, r = VStr role /\ role ∈ roles)
  /\
  (length (http_requests (snd (get_user_role E (VSession i) base_url w)))
   <= length (http_requests w) + 2)%nat.
Proof.
  intros Hmiss Hdash Hok.
  pose proof (get_user_role_lookup E i base_url w Hmiss) as Hrun.
  cbv zeta in Hrun. rewrite Hdash, Hok in Hrun.
  split; [|split; [|split]].
  - intros Hmark. by rewrite Hmark in Hrun.
  - intros Hmark m Hm. rewrite Hmark, Hm in Hrun.
    rewrite <- app_assoc in Hrun. simpl in Hrun.
    split; intros Hst.
    + by rewrite Hst in Hrun.
    + by apply Z.eqb_neq in Hst; rewrite Hst in Hrun.
  - intros r w1 Hret.
    rewrite Hrun in Hret. clear Hrun. unfold roles.
    destruct (contains admin_marker (text resp)).
    + injection Hret as <- _. exists "admin". split; [reflexivity|]. set_solver.
    + destruct (http E (trace w ++ [EvGet i (dashboard_url E base_url)]) i
                  (management_url E base_url)) as [m|]; [|discriminate Hret].
      injection Hret as <- _.
      destruct (status_code m =? 200);
        eexists; (split; [reflexivity|]); set_solver.
  - destruct (get_user_role_trace E (VSession i) base_url w)
      as (gets & Ht & Hlen & _).
    unfold http_requests. rewrite Ht, filter_app, length_app.
    pose proof (length_filter is_get gets). lia.
Qed.

(** C5, the claim as stated fails: the failure raised when nothing is located
    and the failure raised for an insufficient role are both [RoleError]. *)
Lemma unlocated_error_is_role_error :
  fst (requires_role Samples.student_env "manager" Samples.dummy [] ∅
         Samples.fresh)
    = Raise (RoleError config_msg)
  /\ fst (requires_role Samples.student_env "manager" Samples.dummy
            [VSession 0; Samples.site] ∅ Samples.fresh)
     = Raise (RoleError (denied_msg "manager" "user"))
  /\ class_of (RoleError config_msg)
     = class_of (RoleError (denied_msg "manager" "user")).
Proof. vm_compute. repeat split. Qed.

(** C5, amended. When the session or the base URL is not located, the wrapper
    raises [RoleError] with the fixed configuration message and leaves the
    world as it is (no role lookup, no GET, the wrapped function not
    entered).  The exception has the class of the insufficient-role failure
    and differs from it by its message only. *)
Theorem requires_role_unlocated (E : env) (required : string) (func : pyfunc)
    (args : list value) (kwargs : gmap string value) (w : world) :
  locate_session args kwargs = VNone
  \/ locate_base_url args kwargs (locate_session args kwargs) = VNone ->
  requires_role E required func args kwargs w = (Raise (RoleError config_msg), w)
  /\ (forall r c : string,
        class_of (RoleError config_msg) = class_of (RoleError (denied_msg r c))
        /\ config_msg <> denied_msg r c).
Proof.
  intros Hmissing. split.
  - unfold requires_role, role_check, bind.
    assert (is_None (locate_session args kwargs)
            || is_None (locate_base_url args kwargs (locate_session args kwargs))
            = true) as ->; [|done].
    apply orb_true_iff. destruct Hmissing as [H|H]; rewrite H; auto.
  - intros r c. split; [done|]. unfold config_msg, denied_msg. simpl. discriminate.
Qed.

Lemma kwargs_get_session (session base_url : value) :
  kwargs_get {[ "session" := session; "base_url" := base_url ]} "session"
  = session.
Proof. unfold kwargs_get. by rewrite lookup_insert_eq. Qed.

Lemma kwargs_get_base_url (session base_url : value) :
  kwargs_get {[ "session" := session; "base_url" := base_url ]} "base_url"
  = base_url.
Proof.
  unfold kwargs_get. rewrite lookup_insert_ne by done.
  by rewrite lookup_singleton_eq.
Qed.

Lemma py_eq_refl (v : value) : py_eq v v = true.
Proof.
  destruct v as [ | b | z | s | i | j ]; simpl;
    auto using Z.eqb_refl, String.eqb_refl, Nat.eqb_refl.
  by destruct b.
Qed.

(** Both call forms locate the same session and the same base URL. *)
Lemma locate_keyword_positional (i : nat) (base_url : value) :
  locate_session [] {[ "session" := VSession i; "base_url" := base_url ]}
    = VSession i
  /\ locate_base_url [] {[ "session" := VSession i; "base_url" := base_url ]}
       (VSession i) = base_url
  /\ locate_session [VSession i; base_url] ∅ = VSession i
  /\ locate_base_url [VSession i; base_url] ∅ (VSession i) = base_url.
Proof.
  split; [|split; [|split]].
  - unfold locate_session. by rewrite kwargs_get_session.
  - unfold locate_base_url. rewrite kwargs_get_base_url. simpl.
    rewrite andb_true_r. by destruct base_url.
  - done.
  - unfold locate_base_url, kwargs_get. rewrite lookup_empty. simpl.
    by rewrite Nat.eqb_refl.
Qed.



(** C9. A call that gives the session by keyword, gives no [base_url]
    keyword (or [None] for it) and does not carry the session among its
    positional arguments raises the configuration [RoleError], whatever the
    positional arguments are (a base URL among them included), before any
    role lookup. *)
Theorem requires_role_keyword_session_only (E : env) (required : string)
    (func : pyfunc) (args : list value) (kwargs : gmap string value)
    (session : value) (w : world) :
  kwargs !! "session" = Some session ->
  session <> VNone ->
  kwargs_get kwargs "base_url" = VNone ->
  list_index args session = None ->
  locate_session args kwargs = session
  /\ locate_base_url args kwargs session = VNone
  /\ requires_role E required func args kwargs w
     = (Raise (RoleError config_msg), w).
Proof.
  intros Hs Hsome Hb Hidx.
  assert (locate_session args kwargs = session) as Hls.
  { unfold locate_session, kwargs_get. rewrite Hs. simpl.
    by rewrite (is_None_false _ Hsome). }
  assert (locate_base_url args kwargs session = VNone) as Hlb.
  { unfold locate_base_url. rewrite Hb, Hidx. simpl.
    by rewrite (is_None_false _ Hsome). }
  split; [exact Hls|]. split; [exact Hlb|].
  unfold requires_role, role_check, bind. rewrite Hls, Hlb.
  by rewrite orb_true_r.
Qed.

(** The gate at work for a plain user: refused where a manager is required,
    let through where a user suffices. *)
Lemma requires_role_gate_witness :
  (requires_role Samples.student_env "manager" Samples.dummy
     [VSession 0; Samples.site] ∅ Samples.fresh
   = (Raise (RoleError (denied_msg "manager" "user")), Samples.student_world)
   /\ invocations Samples.student_world = invocations Samples.fresh)
  /\ requires_role Samples.student_env "user" Samples.dummy
       [VSession 0; Samples.site] ∅ Samples.fresh
     = Samples.dummy [VSession 0; Samples.site] ∅
         (World (role_attr Samples.student_world)
                (trace Samples.student_world ++ [EvCall])).
Proof.
  split.
  - refine (proj1 (requires_role_gate Samples.student_env "manager"
                     Samples.dummy [VSession 0; Samples.site] ∅ Samples.fresh
                     Samples.student_world (VSession 0) Samples.site "user" 0 1
                     _ _ _ _ _ _ _) _);
      first [ discriminate | lia | vm_compute; reflexivity ].
  - refine (proj2 (requires_role_gate Samples.student_env "user"
                     Samples.dummy [VSession 0; Samples.site] ∅ Samples.fresh
                     Samples.student_world (VSession 0) Samples.site "user" 0 0
                     _ _ _ _ _ _ _) _);
      first [ discriminate | lia | vm_compute; reflexivity ].
Defined.

(** A second lookup on the same session, even for another base URL. *)
Lemma get_user_role_memoized_witness :
  role_attr Samples.student_world !! 0%nat = Some (VStr "user")
  /\ get_user_role Samples.student_env (VSession 0)
       (VStr "https://elsewhere.example") Samples.student_world
     = (Return (VStr "user"), Samples.student_world)
  /\ http_requests
       (snd (get_user_role Samples.student_env (VSession 0)
               (VStr "https://elsewhere.example") Samples.student_world))
     = http_requests Samples.student_world.
Proof.
  destruct (get_user_role_memoized Samples.student_env (VSession 0)
              Samples.site (VStr "user") Samples.fresh Samples.student_world
              eq_refl)
    as ((i & Hi & Hset) & _ & _ & Hlater).
  injection Hi as <-.
  destruct (Hlater (VStr "https://elsewhere.example") Samples.student_world
              eq_refl) as (Hrun & _ & Hget).
  split; [exact Hset|]. split; [exact Hrun | exact Hget].
Defined.

(** A plain dashboard and a refused management page give [user]. *)
Lemma get_user_role_decision_witness :
  get_user_role Samples.student_env (VSession 0) Samples.site Samples.fresh
  = (Return (VStr "user"),
     World (<[0%nat := VStr "user"]> (role_attr Samples.fresh))
           (trace Samples.fresh
            ++ [EvGet 0 (dashboard_url Samples.student_env Samples.site);
                EvGet 0 (management_url Samples.student_env Samples.site)])).
Proof.
  refine (proj2 (proj1 (proj2 (get_user_role_decision Samples.student_env 0
                                 Samples.site Samples.fresh
                                 (Response 200 "<html></html>") _ _ _))
                   _ (Response 403 "") _) _);
    first [ discriminate | vm_compute; reflexivity ].
Defined.

(** A call that carries a base URL but no session. *)
Lemma requires_role_unlocated_witness :
  requires_role Samples.student_env "admin" Samples.dummy [Samples.site] ∅
    Samples.fresh
  = (Raise (RoleError config_msg), Samples.fresh).
Proof.
  refine (proj1 (requires_role_unlocated Samples.student_env "admin"
                   Samples.dummy [Samples.site] ∅ Samples.fresh _)).
  left. reflexivity.
Defined.


(** The session by keyword, the base URL as the only positional argument. *)
Lemma requires_role_keyword_session_only_witness :
  requires_role Samples.student_env "user" Samples.dummy [Samples.site]
    {[ "session" := VSession 0 ]} Samples.fresh
  = (Raise (RoleError config_msg), Samples.fresh).
Proof.
  refine (proj2 (proj2 (requires_role_keyword_session_only Samples.student_env
                          "user" Samples.dummy [Samples.site]
                          {[ "session" := VSession 0 ]} (VSession 0)
                          Samples.fresh _ _ _ _)));
    first [ discriminate | vm_compute; reflexivity ].
Defined.

End PermissionsSpec.

(** ** The site-info accessor *)

Module SiteSpec.
Import Site.
Local Open Scope list_scope.

Example full_response_accepted :
  is_Return (fst (get_site_info (Samples.answering Samples.full_response) []))
  = true.
Proof. vm_compute. reflexivity. Qed.

Example missing_theme_rejected :
  fst (get_site_info
         (Samples.answering (delete "theme" Samples.full_response)) [])
  = Raise (TypeError (MissingArguments "SiteInfo" ["theme"])).
Proof. vm_compute. reflexivity. Qed.

(** *** Argument binding *)

Lemma unexpected_nil (fields : list string) (kw : gmap string pyval) :
  unexpected fields kw = [] <-> forall k, is_Some (kw !! k) -> k ∈ fields.
Proof.
  unfold unexpected. split.
  - intros Hnil k [v Hk].
    destruct (decide (k ∈ fields)) as [|Hout]; [done|].
    exfalso. eapply (filter_nil_not_elem_of _ _ k Hnil Hout).
    apply list_elem_of_fmap. exists (k, v). split; [done|].
    by apply elem_of_map_to_list.
  - intros Hall. apply elem_of_nil_inv. intros k Hk.
    apply list_elem_of_filter in Hk as [Hout Hin].
    apply list_elem_of_fmap in Hin as ([k' v] & -> & Hin).
    apply elem_of_map_to_list in Hin. apply Hout, Hall. eauto.
Qed.

Lemma missing_nil (fields : list string) (kw : gmap string pyval) :
  missing fields kw = [] <-> forall f, f ∈ fields -> is_Some (kw !! f).
Proof.
  unfold missing. split.
  - intros Hnil f Hf.
    destruct (kw !! f) as [v|] eqn:Hlk; [eauto|].
    exfalso. by eapply (filter_nil_not_elem_of _ _ f Hnil).
  - intros Hall. apply elem_of_nil_inv. intros f Hf.
    apply list_elem_of_filter in Hf as [Hnone Hin].
    destruct (Hall f Hin) as [v Hv]. congruence.
Qed.

(** Binding leaves the store alone, succeeds exactly on the mappings that
    name the declared fields, and otherwise raises [TypeError]. *)
Lemma bind_arguments_spec (cls : string) (fields : list string)
    (kw : gmap string pyval) (s : list string) :
  (accepts fields kw /\ bind_arguments cls fields kw s = (Return tt, s))
  \/ (~ accepts fields kw
      /\ exists why, bind_arguments cls fields kw s = (Raise (TypeError why), s)).
Proof.
  unfold bind_arguments, accepts.
  destruct (unexpected fields kw) as [|k ks] eqn:Hu.
  - destruct (missing fields kw) as [|f fs] eqn:Hm.
    + left. split; [|done]. split; [by apply unexpected_nil | by apply missing_nil].
    + right. split; [|by eexists].
      intros [_ Hall]. apply missing_nil in Hall. congruence.
  - right. split; [|by eexists].
    intros [Hall _]. apply unexpected_nil in Hall. congruence.
Qed.

Lemma elem_of_two (a b k : string) : k ∈ [a; b] <-> k = a \/ k = b.
Proof.
  rewrite !elem_of_cons. split; [|tauto].
  intros [?|[?|Hnil]]; [tauto | tauto |]. by apply elem_of_nil in Hnil.
Qed.

Lemma accepts_two (a b : string) (kw : gmap string pyval) :
  a <> b -> accepts [a; b] kw ->
  exists x y, kw = {[ a := x; b := y ]}.
Proof.
  intros Hab [Hin Hall].
  destruct (Hall a) as [x Hx]; [apply elem_of_two; by left|].
  destruct (Hall b) as [y Hy]; [apply elem_of_two; by right|].
  exists x, y. apply map_eq. intros k.
  destruct (decide (k = a)) as [->|Ha]; [by rewrite lookup_insert_eq|].
  rewrite lookup_insert_ne by done.
  destruct (decide (k = b)) as [->|Hb]; [by rewrite lookup_singleton_eq|].
  rewrite lookup_singleton_ne by done.
  destruct (kw !! k) as [v|] eqn:Hk; [|done].
  exfalso. assert (k ∈ [a; b]) as Hk' by eauto.
  apply elem_of_two in Hk'. tauto.
Qed.

Lemma accepts_pair (a b : string) (x y : pyval) :
  a <> b -> accepts [a; b] {[ a := x; b := y ]}.
Proof.
  intros Hab. split.
  - intros k [v Hk]. apply elem_of_two.
    destruct (decide (k = a)) as [->|Ha]; [by left|].
    rewrite lookup_insert_ne in Hk by done.
    destruct (decide (k = b)) as [->|Hb]; [by right|].
    by rewrite lookup_singleton_ne in Hk.
  - intros f [->| ->]%elem_of_two.
    + rewrite lookup_insert_eq. eauto.
    + rewrite lookup_insert_ne by done. rewrite lookup_singleton_eq. eauto.
Qed.

(** *** The two small dataclasses *)

Lemma new_SiteFunction_spec (raw : pyval) (s : list string) :
  (exists record, is_SiteFunction_of raw record
                  /\ new_SiteFunction raw s = (Return record, s))
  \/ ((forall record, ~ is_SiteFunction_of raw record)
      /\ exists why, new_SiteFunction raw s = (Raise (TypeError why), s)).
Proof.
  unfold new_SiteFunction, bind, as_mapping, is_SiteFunction_of.
  destruct raw as [ | | | | | |kw| | ];
    try (right; split; [by intros ? (? & ? & ? & ?) | by eexists]).
  simpl.
  destruct (bind_arguments_spec "SiteFunction" SiteFunction_fields kw s)
    as [[Hacc ->]|[Hrej [why ->]]].
  - left. apply accepts_two in Hacc as (x & y & ->); [|done].
    eexists. split; [by eauto|]. simpl.
    rewrite lookup_insert_eq, lookup_insert_ne, lookup_singleton_eq by done.
    done.
  - right. split; [|by eexists].
    intros record (x & y & [= ->] & _). apply Hrej. by apply accepts_pair.
Qed.

Lemma new_AdvancedFeature_spec (raw : pyval) (s : list string) :
  (exists record, is_AdvancedFeature_of raw record
                  /\ new_AdvancedFeature raw s = (Return record, s))
  \/ ((forall record, ~ is_AdvancedFeature_of raw record)
      /\ exists why, new_AdvancedFeature raw s = (Raise (TypeError why), s)).
Proof.
  unfold new_AdvancedFeature, bind, as_mapping, is_AdvancedFeature_of.
  destruct raw as [ | | | | | |kw| | ];
    try (right; split; [by intros ? (? & ? & ? & ?) | by eexists]).
  simpl.
  destruct (bind_arguments_spec "AdvancedFeature" AdvancedFeature_fields kw s)
    as [[Hacc ->]|[Hrej [why ->]]].
  - left. apply accepts_two in Hacc as (x & y & ->); [|done].
    eexists. split; [by eauto|]. simpl.
    rewrite lookup_insert_eq, lookup_insert_ne, lookup_singleton_eq by done.
    done.
  - right. split; [|by eexists].
    intros record (x & y & [= ->] & _). apply Hrej. by apply accepts_pair.
Qed.

(** *** List comprehensions *)

Lemma comprehension_spec (f : pyval -> comp pyval) (R : pyval -> pyval -> Prop) :
  (forall x s,
     (exists y, R x y /\ f x s = (Return y, s))
     \/ ((forall y, ~ R x y) /\ exists why, f x s = (Raise (TypeError why), s))) ->
  forall xs s,
    (exists ys, Forall2 R xs ys /\ comprehension f xs s = (Return ys, s))
    \/ ((exists x, x ∈ xs /\ forall y, ~ R x y)
        /\ exists why, comprehension f xs s = (Raise (TypeError why), s)).
Proof.
  intros Hf xs s. induction xs as [|x xs IH].
  - left. exists []. by split.
  - destruct (Hf x s) as [(y & Hy & Hfx)|(Hbad & why & Hfx)].
    + destruct IH as [(ys & Hys & Hc)|((x' & Hin & Hbad) & why & Hc)].
      * left. exists (y :: ys). split; [by constructor|].
        simpl. unfold bind. by rewrite Hfx, Hc.
      * right. split.
        -- exists x'. split; [apply elem_of_cons; by right | done].
        -- exists why. simpl. unfold bind. by rewrite Hfx, Hc.
    + right. split.
      * exists x. split; [apply elem_of_cons; by left | done].
      * exists why. simpl. unfold bind. by rewrite Hfx.
Qed.

(** *** The record as a mapping *)

Lemma list_to_map_tabulate (g : string -> pyval) (fields : list string)
    (k : string) :
  (list_to_map ((fun f => (f, g f)) <$> fields) : gmap string pyval) !! k
  = if decide (k ∈ fields) then Some (g k) else None.
Proof.
  induction fields as [|f fields IH].
  - rewrite fmap_nil. simpl. rewrite lookup_empty.
    destruct (decide (k ∈ [])) as [Hin|_]; [|done].
    by apply elem_of_nil in Hin.
  - rewrite fmap_cons. simpl.
    destruct (decide (k = f)) as [->|Hne].
    + rewrite lookup_insert_eq.
      destruct (decide (f ∈ f :: fields)) as [_|Hout]; [done|].
      exfalso. apply Hout, elem_of_cons. by left.
    + rewrite lookup_insert_ne by done. rewrite IH.
      destruct (decide (k ∈ fields)) as [Hin|Hout];
        destruct (decide (k ∈ f :: fields)) as [Hin'|Hout']; try done.
      * exfalso. apply Hout', elem_of_cons. by right.
      * apply elem_of_cons in Hin' as [?|?]; congruence.
Qed.

(** The record built from an accepted mapping has that mapping as its
    [__dict__]. *)
Lemma new_SiteInfo_spec (response : pyval) (s : list string) :
  (exists kw info,
     response = PDict kw /\ accepts SiteInfo_fields kw
     /\ SiteInfo_dict info = kw
     /\ new_SiteInfo response s = (Return info, s))
  \/ ((forall kw, response = PDict kw -> ~ accepts SiteInfo_fields kw)
      /\ exists why, new_SiteInfo response s = (Raise (TypeError why), s)).
Proof.
  unfold new_SiteInfo, bind, as_mapping.
  destruct response as [ | | | | | |kw| | ];
    try (right; split; [by intros ? [=] | by eexists]).
  simpl.
  destruct (bind_arguments_spec "SiteInfo" SiteInfo_fields kw s)
    as [[Hacc ->]|[Hrej [why ->]]].
  - left. eexists kw, _. split; [done|]. split; [done|]. split; [|done].
    apply map_eq. intros k. unfold SiteInfo_dict.
    change (SiteInfo_items _)
      with ((fun f => (f, default PNone (kw !! f))) <$> SiteInfo_fields).
    rewrite list_to_map_tabulate. destruct Hacc as [Hin Hall].
    destruct (decide (k ∈ SiteInfo_fields)) as [Hk|Hk].
    + destruct (Hall k Hk) as [v ->]. done.
    + destruct (kw !! k) as [v|] eqn:Hlk; [|done].
      exfalso. apply Hk, Hin. eauto.
  - right. split; [|by eexists]. by intros ? [= <-].
Qed.

(** *** get_site_info *)

(** Everything a successful run of [get_site_info] went through. *)
Lemma get_site_info_Return (session : session_t) (calls calls' : list string)
    (info : SiteInfo) :
  get_site_info session calls = (Return info, calls') ->
  calls' = calls ++ [wsfunction_site_info]
  /\ exists (d : gmap string pyval) (raw_functions raw_features : pyval)
            (fs gs funs feats : list pyval),
       session calls wsfunction_site_info = Return (PDict d)
       /\ d !! "functions" = Some raw_functions
       /\ elements raw_functions = Some fs
       /\ Forall2 is_SiteFunction_of fs funs
       /\ d !! "advancedfeatures" = Some raw_features
       /\ elements raw_features = Some gs
       /\ Forall2 is_AdvancedFeature_of gs feats
       /\ accepts SiteInfo_fields
            (<["advancedfeatures" := PList feats]>
               (<["functions" := PList funs]> d))
       /\ SiteInfo_dict info
          = <["advancedfeatures" := PList feats]>
              (<["functions" := PList funs]> d).
Proof.
  unfold get_site_info. unfold bind at 1. unfold session_call.
  destruct (session calls wsfunction_site_info) as [response|e] eqn:Hcall;
    [|discriminate].
  unfold bind at 1. unfold getitem at 1.
  destruct response as [ | | | | | |d| | ]; try discriminate.
  destruct (d !! "functions") as [raw_functions|] eqn:Hfun; [|discriminate].
  simpl. unfold bind at 1. unfold iterate at 1.
  destruct (elements raw_functions) as [fs|] eqn:Hfs; [|discriminate].
  simpl. unfold bind at 1.
  destruct (comprehension_spec new_SiteFunction is_SiteFunction_of
              new_SiteFunction_spec fs (calls ++ [wsfunction_site_info]))
    as [(funs & Hfuns & ->)|(_ & why & ->)]; [|discriminate].
  unfold bind at 1. simpl. unfold bind at 1. simpl.
  rewrite lookup_insert_ne by done.
  destruct (d !! "advancedfeatures") as [raw_features|] eqn:Hadv;
    [|discriminate].
  simpl. unfold bind at 1. unfold iterate at 1.
  destruct (elements raw_features) as [gs|] eqn:Hgs; [|discriminate].
  simpl. unfold bind at 1.
  destruct (comprehension_spec new_AdvancedFeature is_AdvancedFeature_of
              new_AdvancedFeature_spec gs (calls ++ [wsfunction_site_info]))
    as [(feats & Hfeats & ->)|(_ & why & ->)]; [|discriminate].
  unfold bind at 1. simpl.
  destruct (new_SiteInfo_spec
              (PDict (<["advancedfeatures" := PList feats]>
                        (<["functions" := PList funs]> d)))
              (calls ++ [wsfunction_site_info]))
    as [(kw & info' & [= <-] & Hacc & Hdict & ->)|(_ & why & ->)];
    [|discriminate].
  intros [= <- <-]. split; [done|].
  exists d, raw_functions, raw_features, fs, gs, funs, feats.
  repeat (split; [done|]). done.
Qed.

Lemma SiteInfo_dict_functions (info : SiteInfo) :
  SiteInfo_dict info !! "functions" = Some (functions info)
  /\ SiteInfo_dict info !! "advancedfeatures" = Some (advancedfeatures info).
Proof. destruct info. split; vm_compute; reflexivity. Qed.

(** On a mapping, [get_site_info] can only fail with a [KeyError] for one of
    the two list fields or with a [TypeError]. *)
Lemma get_site_info_Raise (session : session_t) (calls calls' : list string)
    (d : gmap string pyval) (e : exn) :
  session calls wsfunction_site_info = Return (PDict d) ->
  get_site_info session calls = (Raise e, calls') ->
  (exists k, e = KeyError k /\ d !! k = None
             /\ (k = "functions" \/ k = "advancedfeatures"))
  \/ (exists why, e = TypeError why).
Proof.
  intros Hcall.
  unfold get_site_info. unfold bind at 1. unfold session_call. rewrite Hcall.
  unfold bind at 1. unfold getitem at 1.
  destruct (d !! "functions") as [raw_functions|] eqn:Hfun;
    [|intros [= <- _]; left; eauto].
  simpl. unfold bind at 1. unfold iterate at 1.
  destruct (elements raw_functions) as [fs|] eqn:Hfs;
    [|intros [= <- _]; right; eauto].
  simpl. unfold bind at 1.
  destruct (comprehension_spec new_SiteFunction is_SiteFunction_of
              new_SiteFunction_spec fs (calls ++ [wsfunction_site_info]))
    as [(funs & Hfuns & ->)|(_ & why & ->)];
    [|intros [= <- _]; right; eauto].
  unfold bind at 1. simpl. unfold bind at 1. simpl.
  rewrite lookup_insert_ne by done.
  destruct (d !! "advancedfeatures") as [raw_features|] eqn:Hadv;
    [|intros [= <- _]; left; eauto].
  simpl. unfold bind at 1. unfold iterate at 1.
  destruct (elements raw_features) as [gs|] eqn:Hgs;
    [|intros [= <- _]; right; eauto].
  simpl. unfold bind at 1.
  destruct (comprehension_spec new_AdvancedFeature is_AdvancedFeature_of
              new_AdvancedFeature_spec gs (calls ++ [wsfunction_site_info]))
    as [(feats & Hfeats & ->)|(_ & why & ->)];
    [|intros [= <- _]; right; eauto].
  unfold bind at 1. simpl.
  destruct (new_SiteInfo_spec
              (PDict (<["advancedfeatures" := PList feats]>
                        (<["functions" := PList funs]> d)))
              (calls ++ [wsfunction_site_info]))
    as [(kw & info' & _ & _ & _ & ->)|(_ & why & ->)];
    [discriminate | intros [= <- _]; right; eauto].
Qed.

(** C2. When the answer of the platform is a mapping that lacks a declared
    [SiteInfo] field, [get_site_info] raises and returns no record: the
    exception is a [KeyError] for a list field that the answer lacks, or a
    [TypeError]. *)
Theorem get_site_info_missing_field (session : session_t)
    (calls : list string) (d : gmap string pyval) (f : string) :
  session calls wsfunction_site_info = Return (PDict d) ->
  f ∈ SiteInfo_fields ->
  d !! f = None ->
  exists e,
    fst (get_site_info session calls) = Raise e
    /\ ((exists k, e = KeyError k /\ d !! k = None
                   /\ (k = "functions" \/ k = "advancedfeatures"))
        \/ (exists why, e = TypeError why)).
Proof.
  intros Hcall Hf Hnone.
  destruct (get_site_info session calls) as [[info|e] calls'] eqn:Hrun.
  - exfalso.
    apply get_site_info_Return in Hrun
      as (_ & d' & rf & ra & fs & gs & funs & feats & Hcall' & Hfun & _ & _
          & Hadv & _ & _ & [_ Hall] & _).
    rewrite Hcall in Hcall'. injection Hcall' as <-.
    destruct (Hall f Hf) as [v Hv].
    destruct (decide (f = "advancedfeatures")) as [->|Ha]; [congruence|].
    rewrite lookup_insert_ne in Hv by done.
    destruct (decide (f = "functions")) as [->|Hb]; [congruence|].
    rewrite lookup_insert_ne in Hv by done. congruence.
  - exists e. split; [done|]. by eapply get_site_info_Raise.
Qed.

(** C7. A successful [get_site_info] has made exactly one web-service call,
    [core_webservice_get_site_info], which answered with a mapping; the
    [functions] field of the record is the list of [SiteFunction] records
    obtained elementwise, in order, from the elements of the answer's
    [functions], likewise [advancedfeatures] with [AdvancedFeature] records,
    and every other field holds the value the answer has under that name. *)
Theorem get_site_info_reshapes (session : session_t)
    (calls calls' : list string) (info : SiteInfo) :
  get_site_info session calls = (Return info, calls') ->
  calls' = calls ++ [wsfunction_site_info]
  /\ exists (d : gmap string pyval) (raw_functions raw_features : pyval)
            (fs gs funs feats : list pyval),
       session calls wsfunction_site_info = Return (PDict d)
       /\ d !! "functions" = Some raw_functions
       /\ elements raw_functions = Some fs
       /\ Forall2 is_SiteFunction_of fs funs
       /\ functions info = PList funs
       /\ d !! "advancedfeatures" = Some raw_features
       /\ elements raw_features = Some gs
       /\ Forall2 is_AdvancedFeature_of gs feats
       /\ advancedfeatures info = PList feats
       /\ (forall f, f <> "functions" -> f <> "advancedfeatures" ->
                     SiteInfo_dict info !! f = d !! f).
Proof.
  intros Hrun.
  apply get_site_info_Return in Hrun
    as (Hcalls & d & rf & ra & fs & gs & funs & feats & Hcall & Hfun & Hfs
        & Hfuns & Hadv & Hgs & Hfeats & _ & Hdict).
  split; [done|].
  exists d, rf, ra, fs, gs, funs, feats.
  destruct (SiteInfo_dict_functions info) as [Hf Ha].
  rewrite Hdict in Hf, Ha.
  rewrite lookup_insert_ne, lookup_insert_eq in Hf by done.
  rewrite lookup_insert_eq in Ha.
  repeat (split; [done || congruence|]).
  intros f Hnf Hna. rewrite Hdict. by rewrite !lookup_insert_ne.
Qed.

(** C10. When the answer of the platform is a mapping with a key that is not
    a declared [SiteInfo] field, or whose [functions] list has a mapping with
    a key that [SiteFunction] does not declare, or whose [advancedfeatures]
    list has a mapping with a key that [AdvancedFeature] does not declare,
    [get_site_info] raises and returns no record. *)
Theorem get_site_info_extra_key (session : session_t) (calls : list string)
    (d : gmap string pyval) :
  session calls wsfunction_site_info = Return (PDict d) ->
  (exists k, is_Some (d !! k) /\ k ∉ SiteInfo_fields)
  \/ (exists l kw k, d !! "functions" = Some (PList l) /\ PDict kw ∈ l
                     /\ is_Some (kw !! k) /\ k ∉ SiteFunction_fields)
  \/ (exists l kw k, d !! "advancedfeatures" = Some (PList l) /\ PDict kw ∈ l
                     /\ is_Some (kw !! k) /\ k ∉ AdvancedFeature_fields) ->
  exists e,
    fst (get_site_info session calls) = Raise e
    /\ ((exists k, e = KeyError k /\ d !! k = None
                   /\ (k = "functions" \/ k = "advancedfeatures"))
        \/ (exists why, e = TypeError why)).
Proof.
  intros Hcall Hextra.
  destruct (get_site_info session calls) as [[info|e] calls'] eqn:Hrun.
  - exfalso.
    apply get_site_info_Return in Hrun
      as (_ & d' & rf & ra & fs & gs & funs & feats & Hcall' & Hfun & Hfs
          & Hfuns & Hadv & Hgs & Hfeats & [Hin _] & _).
    rewrite Hcall in Hcall'. injection Hcall' as <-.
    destruct Hextra as [(k & Hk & Hout)
                       |[(l & kw & k & Hl & Hel & Hk & Hout)
                        |(l & kw & k & Hl & Hel & Hk & Hout)]].
    + apply Hout, Hin.
      destruct (decide (k = "advancedfeatures")) as [->|Ha];
        [by rewrite lookup_insert_eq|].
      rewrite lookup_insert_ne by done.
      destruct (decide (k = "functions")) as [->|Hb];
        [by rewrite lookup_insert_eq|].
      by rewrite lookup_insert_ne.
    + rewrite Hl in Hfun. injection Hfun as <-. simpl in Hfs.
      injection Hfs as <-.
      apply list_elem_of_lookup in Hel as [n Hn].
      destruct (Forall2_lookup_l _ _ _ _ _ Hfuns Hn)
        as (record & _ & (x & y & [= ->] & _)).
      apply Hout. unfold SiteFunction_fields.
      destruct (decide (k = "name")) as [->|Hne];
        [apply elem_of_cons; by left|].
      rewrite lookup_insert_ne in Hk by done.
      destruct (decide (k = "version")) as [->|Hne'];
        [apply elem_of_cons; right; apply elem_of_cons; by left|].
      rewrite lookup_singleton_ne in Hk by done. by destruct Hk.
    + rewrite Hl in Hadv. injection Hadv as <-. simpl in Hgs.
      injection Hgs as <-.
      apply list_elem_of_lookup in Hel as [n Hn].
      destruct (Forall2_lookup_l _ _ _ _ _ Hfeats Hn)
        as (record & _ & (x & y & [= ->] & _)).
      apply Hout. unfold AdvancedFeature_fields.
      destruct (decide (k = "name")) as [->|Hne];
        [apply elem_of_cons; by left|].
      rewrite lookup_insert_ne in Hk by done.
      destruct (decide (k = "value")) as [->|Hne'];
        [apply elem_of_cons; right; apply elem_of_cons; by left|].
      rewrite lookup_singleton_ne in Hk by done. by destruct Hk.
  - exists e. split; [done|]. by eapply get_site_info_Raise.
Qed.

(** The complete answer without its [theme]. *)
Lemma get_site_info_missing_field_witness :
  exists e,
    fst (get_site_info
           (Samples.answering (delete "theme" Samples.full_response)) [])
    = Raise e
    /\ ((exists k, e = KeyError k
                   /\ delete "theme" Samples.full_response !! k = None
                   /\ (k = "functions" \/ k = "advancedfeatures"))
        \/ (exists why, e = TypeError why)).
Proof.
  refine (get_site_info_missing_field
            (Samples.answering (delete "theme" Samples.full_response)) []
            (delete "theme" Samples.full_response) "theme" _ _ _).
  - reflexivity.
  - apply (bool_decide_unpack _). vm_compute. exact I.
  - vm_compute. reflexivity.
Defined.

(** The complete answer and the record built from it. *)
Lemma get_site_info_reshapes_witness :
  [wsfunction_site_info] = [] ++ [wsfunction_site_info]
  /\ exists (d : gmap string pyval) (raw_functions raw_features : pyval)
            (fs gs funs feats : list pyval),
       Samples.answering Samples.full_response [] wsfunction_site_info
         = Return (PDict d)
       /\ d !! "functions" = Some raw_functions
       /\ elements raw_functions = Some fs
       /\ Forall2 is_SiteFunction_of fs funs
       /\ functions Samples.full_info = PList funs
       /\ d !! "advancedfeatures" = Some raw_features
       /\ elements raw_features = Some gs
       /\ Forall2 is_AdvancedFeature_of gs feats
       /\ advancedfeatures Samples.full_info = PList feats
       /\ (forall f, f <> "functions" -> f <> "advancedfeatures" ->
                     SiteInfo_dict Samples.full_info !! f = d !! f).
Proof.
  refine (get_site_info_reshapes (Samples.answering Samples.full_response)
            [] [wsfunction_site_info] Samples.full_info _).
  vm_compute. reflexivity.
Defined.

(** The complete answer with one more key. *)
Lemma get_site_info_extra_key_witness :
  exists e,
    fst (get_site_info
           (Samples.answering (<["serverversion" := PInt 5]> Samples.full_response))
           [])
    = Raise e
    /\ ((exists k, e = KeyError k
                   /\ <["serverversion" := PInt 5]> Samples.full_response !! k
                      = None
                   /\ (k = "functions" \/ k = "advancedfeatures"))
        \/ (exists why, e = TypeError why)).
Proof.
  refine (get_site_info_extra_key
            (Samples.answering (<["serverversion" := PInt 5]> Samples.full_response))
            [] (<["serverversion" := PInt 5]> Samples.full_response) _ _).
  - reflexivity.
  - left. exists "serverversion". split.
    + exists (PInt 5). vm_compute. reflexivity.
    + apply (bool_decide_unpack _). vm_compute. exact I.
Defined.

Example extra_key_rejected :
  fst (get_site_info
         (Samples.answering (<["serverversion" := PInt 5]> Samples.full_response))
         [])
  = Raise (TypeError (UnexpectedKeyword "SiteInfo")).
Proof. vm_compute. reflexivity. Qed.

Example extra_key_in_function_rejected :
  fst (get_site_info
         (Samples.answering
            (<["functions" :=
                 PList [PDict {[ "name" := PStr "f"; "version" := PStr "1";
                                 "component" := PStr "core" ]}]]>
               Samples.full_response))
         [])
  = Raise (TypeError (UnexpectedKeyword "SiteFunction")).
Proof. vm_compute. reflexivity. Qed.

End SiteSpec.

(** ** The cleanup of the example script *)

Module ScriptSpec.
Import ExampleScript.
Local Open Scope list_scope.

Lemma delete_attempts_app (l1 l2 : list event) :
  delete_attempts (l1 ++ l2) = delete_attempts l1 ++ delete_attempts l2.
Proof. unfold delete_attempts. apply omap_app. Qed.

(** One guarded deletion: the call is made and, whatever [Exception] it may
    raise, the loop goes on. *)
Lemma delete_each_spec (P : platform) (ids : list Z) (s : state) :
  (forall l c e, delete_course P l c = Raise e -> isinstance_Exception e = true) ->
  exists s',
    delete_each P ids s = (Return tt, s')
    /\ created_course_ids s' = created_course_ids s
    /\ delete_attempts (log s') = delete_attempts (log s) ++ ids.
Proof.
  intros Hexc. revert s. induction ids as [|c ids IH]; intros s.
  - exists s. simpl. by rewrite app_nil_r.
  - simpl. unfold bind at 1.
    unfold try_except, bind, console_print, emit, external. simpl.
    destruct (delete_course P (log s ++ [EvPrint (MsgDeleting c)]) c)
      as [[]|e] eqn:Hdel.
    + edestruct IH as (s' & -> & Hids & Hlog). exists s'.
      split; [done|]. split; [done|].
      rewrite Hlog. simpl. rewrite !delete_attempts_app. simpl.
      rewrite !app_nil_r. by rewrite <- app_assoc.
    + rewrite (Hexc _ _ _ Hdel).
      edestruct IH as (s' & -> & Hids & Hlog). exists s'.
      split; [done|]. split; [done|].
      rewrite Hlog. simpl. rewrite !delete_attempts_app. simpl.
      rewrite !app_nil_r. by rewrite <- app_assoc.
Qed.

Lemma cleanup_spec (P : platform) (s : state) :
  (forall l c e, delete_course P l c = Raise e -> isinstance_Exception e = true) ->
  exists s',
    cleanup P s = (Return tt, s')
    /\ created_course_ids s' = created_course_ids s
    /\ delete_attempts (log s') = delete_attempts (log s) ++ created_course_ids s.
Proof.
  intros Hexc. unfold cleanup.
  destruct (created_course_ids s) as [|c ids] eqn:Hids.
  - exists s. rewrite Hids. by rewrite app_nil_r.
  - unfold bind at 1. unfold console_print at 1, emit. 
    unfold bind at 1.
    destruct (delete_each_spec P (c :: ids)
                (State (created_course_ids s) (log s ++ [EvPrint MsgCleanupPhase]))
                Hexc) as (s1 & -> & Hc1 & Hl1).
    eexists. split; [reflexivity|]. simpl. split; [by rewrite Hc1|].
    rewrite delete_attempts_app, Hl1. simpl.
    rewrite delete_attempts_app. simpl. by rewrite !app_nil_r.
Qed.

(** The main phase calls no [delete_course]. *)
Lemma main_loop_no_delete (P : platform) (indices : list nat) (s : state) :
  delete_attempts (log (snd (main_loop P indices s))) = delete_attempts (log s).
Proof.
  revert s. induction indices as [|i indices IH]; intros s; [done|].
  simpl. unfold bind, console_print, emit, external, append_created. simpl.
  destruct (create_course P _ _) as [course_id|e]; simpl.
  - destruct (populate P _ _) as [[]|e]; simpl.
    + rewrite IH. simpl. rewrite !delete_attempts_app. simpl.
      by rewrite !app_nil_r.
    + rewrite !delete_attempts_app. simpl. by rewrite !app_nil_r.
  - rewrite !delete_attempts_app. simpl. by rewrite !app_nil_r.
Qed.

(** The guarded part of [main]: the cleanup runs on whatever the main phase
    left, however it ended. *)
Lemma guarded_run_spec (P : platform) (s s1 : state) (r : outcome exn unit) :
  (forall l c e, delete_course P l c = Raise e -> isinstance_Exception e = true) ->
  main_phase P s = (r, s1) ->
  exists s2,
    guarded_run P s
      = (match r with
         | Raise (Interrupt cls) => Raise (Interrupt cls)
         | _ => Return tt
         end, s2)
    /\ created_course_ids s2 = created_course_ids s1
    /\ delete_attempts (log s2)
       = delete_attempts (log s) ++ created_course_ids s1.
Proof.
  intros Hexc Hmain.
  pose proof (main_loop_no_delete P (seq 0 NUM_COURSES_TO_CREATE) s) as Hnone.
  fold (main_phase P) in Hnone. rewrite Hmain in Hnone. simpl in Hnone.
  unfold guarded_run, try_finally, try_except. rewrite Hmain.
  destruct r as [[]|[cls|cls]]; simpl.
  - destruct (cleanup_spec P s1 Hexc) as (s2 & -> & Hids & Hlog).
    exists s2. by rewrite Hlog, Hnone.
  - unfold console_print, emit.
    destruct (cleanup_spec P
                (State (created_course_ids s1)
                       (log s1 ++ [EvPrint (MsgExecutionError (Error cls))]))
                Hexc) as (s2 & -> & Hids & Hlog).
    exists s2. split; [done|]. split; [done|].
    rewrite Hlog. simpl. rewrite delete_attempts_app, Hnone. simpl.
    by rewrite app_nil_r.
  - destruct (cleanup_spec P s1 Hexc) as (s2 & -> & Hids & Hlog).
    exists s2. by rewrite Hlog, Hnone.
Qed.

(** C8. Provided what [delete_course] raises are instances of [Exception]:
    the cleanup block calls [delete_course] once for every recorded course
    ID, in order, and completes, whatever each call raises; the guarded part
    of [main] runs that block on the IDs the main phase recorded, whether the
    main phase returned or raised; and a whole run of [main] ends with a
    deletion attempt for every course ID it recorded. *)
Theorem cleanup_attempts_every_course (P : platform) (s : state) :
  (forall l c e, delete_course P l c = Raise e -> isinstance_Exception e = true) ->
  (exists s',
     cleanup P s = (Return tt, s')
     /\ delete_attempts (log s')
        = delete_attempts (log s) ++ created_course_ids s)
  /\
  (forall (r : outcome exn unit) (s1 : state),
     main_phase P s = (r, s1) ->
     exists s2,
       guarded_run P s
         = (match r with
            | Raise (Interrupt cls) => Raise (Interrupt cls)
            | _ => Return tt
            end, s2)
       /\ created_course_ids s2 = created_course_ids s1
       /\ delete_attempts (log s2)
          = delete_attempts (log s) ++ created_course_ids s1)
  /\
  delete_attempts (log (snd (main P (State [] (log s)))))
  = delete_attempts (log s)
    ++ created_course_ids (snd (main P (State [] (log s)))).
Proof.
  intros Hexc. split; [|split].
  - destruct (cleanup_spec P s Hexc) as (s' & Hrun & _ & Hlog). eauto.
  - intros r s1 Hmain. exact (guarded_run_spec P s s1 r Hexc Hmain).
  - unfold main. unfold bind at 1. unfold console_print at 1, emit. simpl.
    destruct (fixtures_is_dir P); simpl.
    + unfold bind at 1. unfold try_except, bind, external. simpl.
      destruct (login P (log s ++ [EvPrint MsgStarting])) as [[]|e]; simpl.
      * destruct (main_phase P
                    (State [] ((log s ++ [EvPrint MsgStarting]) ++ [EvLogin])))
          as [r s1] eqn:Hmain.
        destruct (guarded_run_spec P _ s1 r Hexc Hmain)
          as (s2 & -> & Hids & Hlog).
        simpl. rewrite Hlog, Hids. simpl.
        rewrite !delete_attempts_app. simpl. by rewrite !app_nil_r.
      * destruct (isinstance_MoodleSessionError _ e); simpl;
          unfold console_print, emit; simpl;
          rewrite !delete_attempts_app; simpl; by rewrite !app_nil_r.
    + unfold console_print, emit. simpl.
      rewrite !delete_attempts_app. simpl. by rewrite !app_nil_r.
Qed.

(** A run in which filling the course fails and so does its deletion. *)
Lemma cleanup_attempts_every_course_witness :
  guarded_run Samples.failing_platform Samples.start
  = (Return tt,
     State [42]
       [ EvPrint (MsgCreating 1); EvCreate 1; EvPrint (MsgCreated 42);
         EvPopulate 42; EvPrint (MsgExecutionError (Error "RuntimeError"));
         EvPrint MsgCleanupPhase; EvPrint (MsgDeleting 42); EvDelete 42;
         EvPrint (MsgDeleteError 42 (Error "MoodleCourseError"));
         EvPrint MsgCleanupCompleted ])
  /\ delete_attempts (log (snd (guarded_run Samples.failing_platform Samples.start)))
     = [42].
Proof.
  assert (forall l c e,
            delete_course Samples.failing_platform l c = Raise e ->
            isinstance_Exception e = true) as Hexc.
  { intros l c e [= <-]. reflexivity. }
  destruct (proj1 (proj2 (cleanup_attempts_every_course
                            Samples.failing_platform Samples.start Hexc))
              (Raise (Error "RuntimeError"))
              (State [42] [ EvPrint (MsgCreating 1); EvCreate 1;
                            EvPrint (MsgCreated 42); EvPopulate 42 ])
              eq_refl)
    as (s2 & Hrun & Hids & Hlog).
  split.
  - vm_compute. reflexivity.
  - rewrite Hrun. exact Hlog.
Defined.

End ScriptSpec.

(** ** More on the role gate *)

Module PermissionsExtra.
Import Permissions PermissionsAux.
Local Open Scope list_scope.

(** What a returned check went through. *)
Lemma role_check_Return (E : env) (required : string) (args : list value)
    (kwargs : gmap string value) (w w1 : world) :
  role_check E required args kwargs w = (Return tt, w1) ->
  exists (role : string) (have need : Z),
    locate_session args kwargs <> VNone
    /\ locate_base_url args kwargs (locate_session args kwargs) <> VNone
    /\ get_user_role E (locate_session args kwargs)
         (locate_base_url args kwargs (locate_session args kwargs)) w
       = (Return (VStr role), w1)
    /\ ROLE_HIERARCHY !! role = Some have
    /\ ROLE_HIERARCHY !! required = Some need
    /\ need <= have.
Proof.
  unfold role_check.
  destruct (is_None (locate_session args kwargs)) eqn:Hs; [discriminate|].
  destruct (is_None (locate_base_url args kwargs (locate_session args kwargs)))
    eqn:Hb; [discriminate|].
  simpl. unfold bind at 1.
  destruct (get_user_role E _ _ w) as [[cr|e] w'] eqn:Hrole; [|discriminate].
  unfold bind at 1. unfold hierarchy_getitem at 1.
  destruct cr as [ | b | z | role | i | j ]; try discriminate.
  destruct (ROLE_HIERARCHY !! role) as [have|] eqn:Hhave; [|discriminate].
  unfold ret at 1. unfold bind at 1. unfold hierarchy_getitem.
  destruct (ROLE_HIERARCHY !! required) as [need|] eqn:Hneed; [|discriminate].
  unfold ret at 1.
  destruct (have <? need) eqn:Hcmp; [discriminate|].
  intros [= <-]. exists role, have, need.
  repeat (split; [first [done | by intros Heq; rewrite Heq in *]|]).
  lia.
Qed.

(** The world after a returned lookup answers the same lookup from its
    cache. *)
Lemma get_user_role_again (E : env) (session base_url base_url' role : value)
    (w w1 : world) :
  get_user_role E session base_url w = (Return role, w1) ->
  get_user_role E session base_url' w1 = (Return role, w1).
Proof.
  intros Hfirst.
  destruct (PermissionsSpec.get_user_role_returns_session _ _ _ _ _ _ Hfirst)
    as [i ->].
  apply PermissionsSpec.get_user_role_cached.
  - destruct (truthy (default VNone (role_attr w !! i))) eqn:Hhit.
    + destruct (role_attr w !! i) as [c|] eqn:Hlk; [|done]. simpl in Hhit.
      rewrite (PermissionsSpec.get_user_role_cached E i base_url c w Hlk Hhit)
        in Hfirst.
      by simplify_eq.
    + rewrite PermissionsSpec.get_user_role_lookup in Hfirst by done.
      cbv zeta in Hfirst.
      destruct (http E (trace w) i _) as [resp|]; [|done].
      destruct (is_error_status _); [done|].
      destruct (contains _ _).
      * simplify_eq. simpl. by rewrite lookup_insert_eq.
      * destruct (http E _ i _) as [m|]; [|done].
        simplify_eq. simpl. by rewrite lookup_insert_eq.
  - destruct (truthy (default VNone (role_attr w !! i))) eqn:Hhit.
    + destruct (role_attr w !! i) as [c|] eqn:Hlk; [|done]. simpl in Hhit.
      rewrite (PermissionsSpec.get_user_role_cached E i base_url c w Hlk Hhit)
        in Hfirst.
      by simplify_eq.
    + rewrite PermissionsSpec.get_user_role_lookup in Hfirst by done.
      cbv zeta in Hfirst.
      destruct (http E (trace w) i _) as [resp|]; [|done].
      destruct (is_error_status _); [done|].
      destruct (contains _ _).
      * by simplify_eq.
      * destruct (http E _ i _) as [m|]; [|done].
        simplify_eq. by destruct (status_code m =? 200).
Qed.

(** X1. A lookup that raises leaves every cached role as it was: a failure
    is never cached. *)
Theorem get_user_role_failure_keeps_cache (E : env) (session base_url : value)
    (w w1 : world) (e : exn) :
  get_user_role E session base_url w = (Raise e, w1) ->
  role_attr w1 = role_attr w.
Proof.
  destruct session as [ | b | z | s | i | j ];
    try (unfold get_user_role, bind; simpl; by intros [= _ <-]).
  destruct (truthy (default VNone (role_attr w !! i))) eqn:Hhit.
  - unfold get_user_role, bind, getattr_moodle_role. rewrite Hhit. discriminate.
  - rewrite PermissionsSpec.get_user_role_lookup by done. cbv zeta.
    destruct (http E (trace w) i _) as [resp|]; [|by intros [= _ <-]].
    destruct (is_error_status _); [by intros [= _ <-]|].
    destruct (contains _ _); [discriminate|].
    destruct (http E _ i _) as [m|]; [discriminate | by intros [= _ <-]].
Qed.

(** The dashboard that answers 500 leaves the empty cache empty. *)
Lemma get_user_role_failure_keeps_cache_witness :
  role_attr (World ∅ [EvGet 0 "https://moodle.example/my/"])
  = role_attr Samples.fresh.
Proof.
  refine (get_user_role_failure_keeps_cache (Samples.constant_env 500 "")
            (VSession 0) Samples.site Samples.fresh
            (World ∅ [EvGet 0 "https://moodle.example/my/"]) (HTTPError 500) _).
  vm_compute. reflexivity.
Defined.

(** X2. A lookup through one session object issues GETs through that object
    only and leaves the cached role of every other session object alone. *)
Theorem get_user_role_frame (E : env) (i j : nat) (base_url : value)
    (w : world) :
  j <> i ->
  (exists gets : list event,
     trace (snd (get_user_role E (VSession i) base_url w)) = trace w ++ gets
     /\ Forall (is_get_of i) gets)
  /\ role_attr (snd (get_user_role E (VSession i) base_url w)) !! j
     = role_attr w !! j.
Proof.
  intros Hji.
  destruct (truthy (default VNone (role_attr w !! i))) eqn:Hhit.
  - unfold get_user_role, bind, getattr_moodle_role. rewrite Hhit. simpl.
    split; [|done]. exists []. by rewrite app_nil_r.
  - rewrite PermissionsSpec.get_user_role_lookup by done. cbv zeta.
    assert (forall url, is_get_of i (EvGet i url)) as Hget
      by (intros url; by exists url).
    destruct (http E (trace w) i _) as [resp|];
      [|split; [eexists [_]; split; [done|]; by repeat constructor | done]].
    destruct (is_error_status _);
      [split; [eexists [_]; split; [done|]; by repeat constructor | done]|].
    destruct (contains _ _).
    { split; [eexists [_]; split; [done|]; by repeat constructor|].
      simpl. by rewrite lookup_insert_ne. }
    destruct (http E _ i _) as [m|]; simpl.
    + split; [eexists [_; _]; split;
              [by rewrite <- app_assoc | by repeat constructor]|].
      by rewrite lookup_insert_ne.
    + split; [eexists [_; _]; split;
              [by rewrite <- app_assoc | by repeat constructor] | done].
Qed.

(** The manager's role survives a lookup through another session. *)
Lemma get_user_role_frame_witness :
  role_attr (snd (get_user_role Samples.student_env (VSession 1) Samples.site
                    manager_world)) !! 0%nat
  = role_attr manager_world !! 0%nat.
Proof.
  refine (proj2 (get_user_role_frame Samples.student_env 1 0 Samples.site
                   manager_world _)).
  discriminate.
Defined.

Lemma roles_truthy (r : string) : r ∈ roles -> truthy (VStr r) = true.
Proof.
  unfold roles. rewrite !elem_of_cons, elem_of_nil.
  by intros [->|[->|[->|[]]]].
Qed.

Lemma cache_valid_insert (w : world) (i : nat) (r : string) (t : list event) :
  cache_valid w -> r ∈ roles ->
  cache_valid (World (<[i := VStr r]> (role_attr w)) t).
Proof.
  intros Hvalid Hr j c Hlk Ht. simpl in Hlk.
  destruct (decide (j = i)) as [->|Hne].
  - rewrite lookup_insert_eq in Hlk. injection Hlk as <-. eauto.
  - rewrite lookup_insert_ne in Hlk by done. eauto.
Qed.

(** X3. The cache keeps holding hierarchy levels: if every usable cached role
    is one of the three levels before a lookup, so it is afterwards, and a
    role the lookup returns is one of the three levels. *)
Theorem get_user_role_keeps_cache_valid (E : env) (session base_url : value)
    (w : world) :
  cache_valid w ->
  cache_valid (snd (get_user_role E session base_url w))
  /\ (forall (r : value) (w1 : world),
        get_user_role E session base_url w = (Return r, w1) ->
        exists role : string, r = VStr role /\ role ∈ roles).
Proof.
  intros Hvalid.
  assert ("admin" ∈ roles /\ "manager" ∈ roles /\ "user" ∈ roles)
    as (Hadmin & Hmanager & Huser) by (unfold roles; set_solver).
  destruct session as [ | b | z | s | i | j ];
    try (unfold get_user_role, bind; simpl; split; [done | discriminate]).
  destruct (truthy (default VNone (role_attr w !! i))) eqn:Hhit.
  - destruct (role_attr w !! i) as [c|] eqn:Hlk; [|done]. simpl in Hhit.
    rewrite (PermissionsSpec.get_user_role_cached E i base_url c w Hlk Hhit).
    split; [done|]. intros r w1 [= <- <-]. eauto.
  - rewrite PermissionsSpec.get_user_role_lookup by done. cbv zeta.
    destruct (http E (trace w) i _) as [resp|]; [|split; [done | discriminate]].
    destruct (is_error_status _); [split; [done | discriminate]|].
    destruct (contains _ _).
    { split; [by apply cache_valid_insert|]. intros r w1 [= <- _]. eauto. }
    destruct (http E _ i _) as [m|]; [|split; [done | discriminate]].
    cbv zeta. destruct (status_code m =? 200).
    + split; [by apply cache_valid_insert|]. intros r w1 [= <- _]. eauto.
    + split; [by apply cache_valid_insert|]. intros r w1 [= <- _]. eauto.
Qed.

(** A first lookup in the fresh world. *)
Lemma get_user_role_keeps_cache_valid_witness :
  cache_valid (snd (get_user_role Samples.student_env (VSession 0)
                      Samples.site Samples.fresh)).
Proof.
  refine (proj1 (get_user_role_keeps_cache_valid Samples.student_env
                   (VSession 0) Samples.site Samples.fresh _)).
  intros i c Hlk. vm_compute in Hlk. discriminate.
Defined.

(** X4. A decorator argument that is not a hierarchy level does not fail at
    decoration time: each located call first looks the role up and then
    raises [KeyError] for that argument, without entering the wrapped
    function. *)
Theorem requires_role_unknown_level (E : env) (required : string)
    (func : pyfunc) (args : list value) (kwargs : gmap string value)
    (w w1 : world) (role : string) (have : Z) :
  locate_session args kwargs <> VNone ->
  locate_base_url args kwargs (locate_session args kwargs) <> VNone ->
  get_user_role E (locate_session args kwargs)
    (locate_base_url args kwargs (locate_session args kwargs)) w
    = (Return (VStr role), w1) ->
  ROLE_HIERARCHY !! role = Some have ->
  ROLE_HIERARCHY !! required = None ->
  requires_role E required func args kwargs w
    = (Raise (KeyError (VStr required)), w1)
  /\ invocations w1 = invocations w.
Proof.
  intros Hs Hb Hrole Hhave Hnone. split.
  - unfold requires_role, role_check.
    rewrite (PermissionsSpec.is_None_false _ Hs),
            (PermissionsSpec.is_None_false _ Hb).
    simpl. unfold bind. rewrite Hrole.
    rewrite (PermissionsSpec.hierarchy_getitem_role _ _ _ Hhave).
    unfold hierarchy_getitem. by rewrite Hnone.
  - pose proof (PermissionsSpec.get_user_role_invocations E
                  (locate_session args kwargs)
                  (locate_base_url args kwargs (locate_session args kwargs)) w)
      as Hinv.
    by rewrite Hrole in Hinv.
Qed.

(** A function guarded by the level [teacher], which does not exist. *)
Lemma requires_role_unknown_level_witness :
  requires_role Samples.student_env "teacher" Samples.dummy
    [VSession 0; Samples.site] ∅ Samples.fresh
    = (Raise (KeyError (VStr "teacher")), Samples.student_world)
  /\ invocations Samples.student_world = invocations Samples.fresh.
Proof.
  refine (requires_role_unknown_level Samples.student_env "teacher"
            Samples.dummy [VSession 0; Samples.site] ∅ Samples.fresh
            Samples.student_world "user" 0 _ _ _ _ _);
    first [ discriminate | vm_compute; reflexivity ].
Defined.

(** X5. The gate is monotone in the required level: a call that passes the
    check for one level passes it, with the same effects, for every level of
    lower or equal rank. *)
Theorem role_check_monotone (E : env) (required required' : string)
    (args : list value) (kwargs : gmap string value) (w w1 : world)
    (need need' : Z) :
  role_check E required args kwargs w = (Return tt, w1) ->
  ROLE_HIERARCHY !! required = Some need ->
  ROLE_HIERARCHY !! required' = Some need' ->
  need' <= need ->
  role_check E required' args kwargs w = (Return tt, w1).
Proof.
  intros Hpass Hneed Hneed' Hle.
  apply role_check_Return in Hpass
    as (role & have & need0 & Hs & Hb & Hrole & Hhave & Hneed0 & Hge).
  rewrite Hneed in Hneed0. injection Hneed0 as <-.
  rewrite (PermissionsSpec.role_check_located E required' args kwargs w w1
             role have need' Hs Hb Hrole Hhave Hneed').
  assert ((have <? need') = false) as -> by lia. done.
Qed.

(** A manager passes the check for [manager], hence for [user]. *)
Lemma role_check_monotone_witness :
  role_check (Samples.constant_env 200 "") "user" [VSession 0; Samples.site] ∅
    Samples.fresh
  = (Return tt,
     World {[ 0%nat := VStr "manager" ]}
           [ EvGet 0 "https://moodle.example/my/";
             EvGet 0 "https://moodle.example/course/management.php" ]).
Proof.
  refine (role_check_monotone (Samples.constant_env 200 "") "manager" "user"
            [VSession 0; Samples.site] ∅ Samples.fresh _ 1 0 _ _ _ _);
    first [ lia | vm_compute; reflexivity ].
Defined.

Lemma find_first_session (pre rest : list value) (i : nat) :
  Forall (fun a => isinstance_Session a = false) pre ->
  List.find isinstance_Session (pre ++ VSession i :: rest) = Some (VSession i).
Proof.
  induction 1 as [|a pre Ha _ IH]; [done|]. simpl. by rewrite Ha.
Qed.

Lemma list_index_first_session (pre rest : list value) (i : nat) :
  Forall (fun a => isinstance_Session a = false) pre ->
  list_index (pre ++ VSession i :: rest) (VSession i) = Some (length pre).
Proof.
  induction 1 as [|a pre Ha _ IH]; simpl.
  - by rewrite Nat.eqb_refl.
  - rewrite IH. by destruct a.
Qed.

(** X6. Without [session] and [base_url] keywords, the wrapper takes the
    first [requests.Session] among the positional arguments as the session
    and the argument right after it as the base URL, whatever that argument
    is and wherever the pair stands. *)
Theorem locate_positional (pre post : list value) (i : nat) (u : value)
    (kwargs : gmap string value) :
  Forall (fun a => isinstance_Session a = false) pre ->
  kwargs_get kwargs "session" = VNone ->
  kwargs_get kwargs "base_url" = VNone ->
  locate_session (pre ++ VSession i :: u :: post) kwargs = VSession i
  /\ locate_base_url (pre ++ VSession i :: u :: post) kwargs (VSession i) = u.
Proof.
  intros Hpre Hs Hb. split.
  - unfold locate_session. rewrite Hs. simpl.
    by rewrite find_first_session.
  - unfold locate_base_url. rewrite Hb. simpl.
    rewrite list_index_first_session by done.
    assert ((length pre + 1 <? length (pre ++ VSession i :: u :: post))%nat
            = true) as ->.
    { apply Nat.ltb_lt. rewrite length_app. simpl. lia. }
    rewrite lookup_app_r by lia.
    by replace (length pre + 1 - length pre)%nat with 1%nat by lia.
Qed.

(** The session and the URL after a leading course number. *)
Lemma locate_positional_witness :
  locate_session ([VInt 12] ++ VSession 0 :: Samples.site :: [VStr "key"]) ∅
    = VSession 0
  /\ locate_base_url ([VInt 12] ++ VSession 0 :: Samples.site :: [VStr "key"])
       ∅ (VSession 0) = Samples.site.
Proof.
  refine (locate_positional [VInt 12] [VStr "key"] 0 Samples.site ∅ _ _ _).
  - repeat constructor.
  - reflexivity.
  - reflexivity.
Defined.

(** X7. A session passed as the last positional argument, with no [session]
    and no [base_url] keyword, has nothing after it to serve as base URL: the
    call raises the configuration [RoleError] and nothing else happens. *)
Theorem requires_role_session_last (E : env) (required : string)
    (func : pyfunc) (pre : list value) (i : nat)
    (kwargs : gmap string value) (w : world) :
  Forall (fun a => isinstance_Session a = false) pre ->
  kwargs_get kwargs "session" = VNone ->
  kwargs_get kwargs "base_url" = VNone ->
  requires_role E required func (pre ++ [VSession i]) kwargs w
  = (Raise (RoleError config_msg), w).
Proof.
  intros Hpre Hs Hb.
  assert (locate_session (pre ++ [VSession i]) kwargs = VSession i) as Hls.
  { unfold locate_session. rewrite Hs. simpl. by rewrite find_first_session. }
  assert (locate_base_url (pre ++ [VSession i]) kwargs (VSession i) = VNone)
    as Hlb.
  { unfold locate_base_url. rewrite Hb. simpl.
    rewrite list_index_first_session by done.
    assert ((length pre + 1 <? length (pre ++ [VSession i]))%nat = false)
      as ->; [|done].
    apply Nat.ltb_ge. rewrite length_app. simpl. lia. }
  unfold requires_role, role_check, bind. rewrite Hls, Hlb. done.
Qed.

(** The base URL placed before the session instead of after it. *)
Lemma requires_role_session_last_witness :
  requires_role Samples.student_env "user" Samples.dummy
    ([Samples.site] ++ [VSession 0]) ∅ Samples.fresh
  = (Raise (RoleError config_msg), Samples.fresh).
Proof.
  refine (requires_role_session_last Samples.student_env "user" Samples.dummy
            [Samples.site] 0 ∅ Samples.fresh _ _ _).
  - repeat constructor.
  - reflexivity.
  - reflexivity.
Defined.

Lemma hierarchy_getitem_world (key : value) (w : world) :
  snd (hierarchy_getitem key w) = w.
Proof.
  unfold hierarchy_getitem. destruct key; try done.
  by destruct (ROLE_HIERARCHY !! s).
Qed.

(** The check itself never enters a wrapped function. *)
Lemma role_check_invocations (E : env) (required : string)
    (args : list value) (kwargs : gmap string value) (w : world) :
  invocations (snd (role_check E required args kwargs w)) = invocations w.
Proof.
  unfold role_check.
  destruct (is_None _ || is_None _); [done|].
  pose proof (PermissionsSpec.get_user_role_invocations E
                (locate_session args kwargs)
                (locate_base_url args kwargs (locate_session args kwargs)) w)
    as Hinv.
  unfold bind at 1.
  destruct (get_user_role E _ _ w) as [[cr|e] w'] eqn:Hrole;
    simpl in Hinv; [|done].
  unfold bind at 1.
  pose proof (hierarchy_getitem_world cr w') as Hw1.
  destruct (hierarchy_getitem cr w') as [[have|e] w1]; simpl in Hw1; subst w1;
    [|done].
  unfold bind at 1.
  pose proof (hierarchy_getitem_world (VStr required) w') as Hw2.
  destruct (hierarchy_getitem (VStr required) w') as [[need|e] w2];
    simpl in Hw2; subst w2; [|done].
  by destruct (have <? need).
Qed.

(** X8. The gate cannot be bypassed: either the session and the base URL
    were located, the role lookup returned a hierarchy level whose rank is at
    least the required one, and the wrapper then runs the wrapped function on
    the original arguments; or the wrapper raises, the same exception
    whatever the wrapped function is, and the wrapped function has not been
    entered. *)
Theorem requires_role_no_bypass (E : env) (required : string) (func : pyfunc)
    (args : list value) (kwargs : gmap string value) (w : world) :
  (exists (role : string) (have need : Z) (w1 : world),
     locate_session args kwargs <> VNone
     /\ locate_base_url args kwargs (locate_session args kwargs) <> VNone
     /\ get_user_role E (locate_session args kwargs)
          (locate_base_url args kwargs (locate_session args kwargs)) w
        = (Return (VStr role), w1)
     /\ ROLE_HIERARCHY !! role = Some have
     /\ ROLE_HIERARCHY !! required = Some need
     /\ need <= have
     /\ requires_role E required func args kwargs w
        = func args kwargs (World (role_attr w1) (trace w1 ++ [EvCall])))
  \/
  (exists (e : exn) (w1 : world),
     (forall func' : pyfunc,
        requires_role E required func' args kwargs w = (Raise e, w1))
     /\ invocations w1 = invocations w).
Proof.
  pose proof (role_check_invocations E required args kwargs w) as Hinv.
  destruct (role_check E required args kwargs w) as [[[]|e] w1] eqn:Hcheck.
  - left.
    destruct (role_check_Return E required args kwargs w w1 Hcheck)
      as (role & have & need & Hs & Hb & Hrole & Hhave & Hneed & Hge).
    exists role, have, need, w1.
    repeat (split; [assumption|]).
    unfold requires_role, bind. by rewrite Hcheck.
  - right. exists e, w1. split; [|exact Hinv].
    intros func'. unfold requires_role, bind. by rewrite Hcheck.
Qed.

Example no_bypass_on_error_page :
  requires_role (Samples.constant_env 503 "") "user" Samples.dummy
    [VSession 0; Samples.site] ∅ Samples.fresh
  = (Raise (HTTPError 503), World ∅ [EvGet 0 "https://moodle.example/my/"]).
Proof. vm_compute. reflexivity. Qed.

(** X9. Once a call has passed the check, checking the same arguments again
    passes again and changes nothing: the role comes from the cache and no
    GET is issued. *)
Theorem role_check_repeated (E : env) (required : string) (args : list value)
    (kwargs : gmap string value) (w w1 : world) :
  role_check E required args kwargs w = (Return tt, w1) ->
  role_check E required args kwargs w1 = (Return tt, w1).
Proof.
  intros Hpass.
  apply role_check_Return in Hpass
    as (role & have & need & Hs & Hb & Hrole & Hhave & Hneed & Hge).
  pose proof (get_user_role_again E _ _
                (locate_base_url args kwargs (locate_session args kwargs))
                _ _ _ Hrole) as Hagain.
  rewrite (PermissionsSpec.role_check_located E required args kwargs w1 w1
             role have need Hs Hb Hagain Hhave Hneed).
  assert ((have <? need) = false) as -> by lia. done.
Qed.

(** The plain user, checked a second time for the level [user]. *)
Lemma role_check_repeated_witness :
  role_check Samples.student_env "user" [VSession 0; Samples.site] ∅
    Samples.student_world
  = (Return tt, Samples.student_world).
Proof.
  refine (role_check_repeated Samples.student_env "user"
            [VSession 0; Samples.site] ∅ Samples.fresh Samples.student_world _).
  vm_compute. reflexivity.
Defined.

End PermissionsExtra.

(** ** More on the site-info accessor *)

Module SiteExtra.
Import Site.
Local Open Scope list_scope.

Lemma comprehension_store (f : pyval -> comp pyval) :
  (forall x s, snd (f x s) = s) ->
  forall xs s, snd (comprehension f xs s) = s.
Proof.
  intros Hf xs s. induction xs as [|x xs IH]; [done|].
  simpl. unfold bind.
  pose proof (Hf x s) as Hx.
  destruct (f x s) as [[y|e] s1]; simpl in Hx; subst s1; [|done].
  destruct (comprehension f xs s) as [[ys|e] s2]; simpl in IH; by subst s2.
Qed.

Lemma new_SiteFunction_store (raw : pyval) (s : list string) :
  snd (new_SiteFunction raw s) = s.
Proof.
  destruct (SiteSpec.new_SiteFunction_spec raw s)
    as [(record & _ & ->)|(_ & why & ->)]; done.
Qed.

Lemma new_AdvancedFeature_store (raw : pyval) (s : list string) :
  snd (new_AdvancedFeature raw s) = s.
Proof.
  destruct (SiteSpec.new_AdvancedFeature_spec raw s)
    as [(record & _ & ->)|(_ & why & ->)]; done.
Qed.

Lemma new_SiteInfo_store (response : pyval) (s : list string) :
  snd (new_SiteInfo response s) = s.
Proof.
  destruct (SiteSpec.new_SiteInfo_spec response s)
    as [(kw & info & _ & _ & _ & ->)|(_ & why & ->)]; done.
Qed.

Lemma get_site_info_store (session : session_t) (calls : list string) :
  snd (get_site_info session calls) = calls ++ [wsfunction_site_info].
Proof.
  unfold get_site_info. unfold bind at 1. unfold session_call.
  destruct (session calls wsfunction_site_info) as [response|e]; [|done].
  unfold bind at 1. unfold getitem at 1.
  destruct response as [ | | | | | |d| | ]; try done.
  destruct (d !! "functions") as [raw_functions|]; [|done].
  simpl. unfold bind at 1. unfold iterate at 1.
  destruct (elements raw_functions) as [fs|]; [|done].
  simpl. unfold bind at 1.
  pose proof (comprehension_store new_SiteFunction new_SiteFunction_store fs
                (calls ++ [wsfunction_site_info])) as Hfs.
  destruct (comprehension new_SiteFunction fs _) as [[funs|e] s1];
    simpl in Hfs; subst s1; [|done].
  unfold bind at 1. simpl. unfold bind at 1. simpl.
  rewrite lookup_insert_ne by done.
  destruct (d !! "advancedfeatures") as [raw_features|]; [|done].
  simpl. unfold bind at 1. unfold iterate at 1.
  destruct (elements raw_features) as [gs|]; [|done].
  simpl. unfold bind at 1.
  pose proof (comprehension_store new_AdvancedFeature new_AdvancedFeature_store
                gs (calls ++ [wsfunction_site_info])) as Hgs.
  destruct (comprehension new_AdvancedFeature gs _) as [[feats|e] s2];
    simpl in Hgs; subst s2; [|done].
  unfold bind at 1. simpl.
  apply new_SiteInfo_store.
Qed.

(** X10. Whatever the platform answers and however [get_site_info] ends, it
    has made exactly one web-service call, [core_webservice_get_site_info]:
    nothing is retried and nothing else is asked. *)
Theorem get_site_info_one_call (session : session_t) (calls : list string) :
  snd (get_site_info session calls) = calls ++ [wsfunction_site_info]
  /\ length (snd (get_site_info session calls)) = S (length calls).
Proof.
  rewrite get_site_info_store. split; [done|].
  rewrite length_app. simpl. lia.
Qed.

Lemma accepts_insert_present (fields : list string) (kw : gmap string pyval)
    (k : string) (v : pyval) :
  accepts fields kw -> k ∈ fields -> accepts fields (<[k := v]> kw).
Proof.
  intros [Hin Hall] Hk. split.
  - intros k' [v' Hlk]. destruct (decide (k' = k)) as [->|Hne]; [done|].
    rewrite lookup_insert_ne in Hlk by done. eauto.
  - intros f Hf. destruct (decide (f = k)) as [->|Hne].
    + rewrite lookup_insert_eq. eauto.
    + rewrite lookup_insert_ne by done. eauto.
Qed.

Lemma comprehension_all (f : pyval -> comp pyval) (R : pyval -> pyval -> Prop)
    (xs : list pyval) (s : list string) :
  (forall x s,
     (exists y, R x y /\ f x s = (Return y, s))
     \/ ((forall y, ~ R x y) /\ exists why, f x s = (Raise (TypeError why), s))) ->
  Forall (fun x => exists y, R x y) xs ->
  exists ys, Forall2 R xs ys /\ comprehension f xs s = (Return ys, s).
Proof.
  intros Hf Hall.
  destruct (SiteSpec.comprehension_spec f R Hf xs s)
    as [Hok|((x & Hin & Hbad) & _)]; [done|].
  exfalso. rewrite Forall_forall in Hall.
  destruct (Hall x Hin) as [y Hy]. by eapply Hbad.
Qed.

(** X11. The strictness is all there is: when the platform answers with a
    mapping that names exactly the declared [SiteInfo] fields, whose
    [functions] is a list of mappings with exactly [name] and [version] and
    whose [advancedfeatures] is a list of mappings with exactly [name] and
    [value], [get_site_info] returns a record, whatever the values are. *)
Theorem get_site_info_accepts (session : session_t) (calls : list string)
    (d : gmap string pyval) (fs gs : list pyval) :
  session calls wsfunction_site_info = Return (PDict d) ->
  accepts SiteInfo_fields d ->
  d !! "functions" = Some (PList fs) ->
  d !! "advancedfeatures" = Some (PList gs) ->
  Forall (fun raw => exists record, is_SiteFunction_of raw record) fs ->
  Forall (fun raw => exists record, is_AdvancedFeature_of raw record) gs ->
  exists (info : SiteInfo) (funs feats : list pyval),
    get_site_info session calls
      = (Return info, calls ++ [wsfunction_site_info])
    /\ Forall2 is_SiteFunction_of fs funs
    /\ Forall2 is_AdvancedFeature_of gs feats
    /\ SiteInfo_dict info
       = <["advancedfeatures" := PList feats]>
           (<["functions" := PList funs]> d).
Proof.
  intros Hcall Hacc Hfun Hadv Hfs Hgs.
  destruct (comprehension_all new_SiteFunction is_SiteFunction_of fs
              (calls ++ [wsfunction_site_info])
              SiteSpec.new_SiteFunction_spec Hfs) as (funs & Hfuns & Hrun1).
  destruct (comprehension_all new_AdvancedFeature is_AdvancedFeature_of gs
              (calls ++ [wsfunction_site_info])
              SiteSpec.new_AdvancedFeature_spec Hgs) as (feats & Hfeats & Hrun2).
  assert (accepts SiteInfo_fields
            (<["advancedfeatures" := PList feats]>
               (<["functions" := PList funs]> d))) as Hacc'.
  { apply accepts_insert_present; [apply accepts_insert_present; [done|]|];
      apply (bool_decide_unpack _); by vm_compute. }
  destruct (SiteSpec.new_SiteInfo_spec
              (PDict (<["advancedfeatures" := PList feats]>
                        (<["functions" := PList funs]> d)))
              (calls ++ [wsfunction_site_info]))
    as [(kw & info & [= <-] & _ & Hdict & Hrun3)|(Hrej & _)];
    [|exfalso; by eapply Hrej].
  exists info, funs, feats. split; [|done].
  unfold get_site_info. unfold bind at 1. unfold session_call. rewrite Hcall.
  unfold bind at 1. unfold getitem at 1. rewrite Hfun.
  simpl. unfold bind at 1. simpl. unfold bind at 1. rewrite Hrun1.
  unfold bind at 1. simpl. unfold bind at 1. simpl.
  rewrite lookup_insert_ne by done. rewrite Hadv.
  simpl. unfold bind at 1. simpl. unfold bind at 1. rewrite Hrun2.
  unfold bind at 1. simpl. exact Hrun3.
Qed.

(** The complete answer is accepted. *)
Lemma get_site_info_accepts_witness :
  exists (info : SiteInfo) (funs feats : list pyval),
    get_site_info (Samples.answering Samples.full_response) []
      = (Return info, [] ++ [wsfunction_site_info])
    /\ Forall2 is_SiteFunction_of
         [PDict {[ "name" := PStr "core_course_get_courses";
                   "version" := PStr "2024100700" ]}] funs
    /\ Forall2 is_AdvancedFeature_of
         [PDict {[ "name" := PStr "usecomments"; "value" := PInt 1 ]}] feats
    /\ SiteInfo_dict info
       = <["advancedfeatures" := PList feats]>
           (<["functions" := PList funs]> Samples.full_response).
Proof.
  refine (get_site_info_accepts (Samples.answering Samples.full_response) []
            Samples.full_response _ _ _ _ _ _ _ _).
  - reflexivity.
  - split.
    + apply SiteSpec.unexpected_nil. vm_compute. reflexivity.
    + apply SiteSpec.missing_nil. vm_compute. reflexivity.
  - vm_compute. reflexivity.
  - vm_compute. reflexivity.
  - repeat constructor. eexists. eexists _, _. split; reflexivity.
  - repeat constructor. eexists. eexists _, _. split; reflexivity.
Defined.

(** X12. The [functions] entry has to be a list: any other value, apart from
    the empty string and the empty mapping (which iterate to nothing), makes
    [get_site_info] raise [TypeError]. *)
Theorem get_site_info_functions_not_a_list (session : session_t)
    (calls : list string) (d : gmap string pyval) (v : pyval) :
  session calls wsfunction_site_info = Return (PDict d) ->
  d !! "functions" = Some v ->
  (forall l, v <> PList l) ->
  v <> PStr "" ->
  v <> PDict ∅ ->
  exists why,
    get_site_info session calls
    = (Raise (TypeError why), calls ++ [wsfunction_site_info]).
Proof.
  intros Hcall Hfun Hlist Hstr Hdict.
  unfold get_site_info. unfold bind at 1. unfold session_call. rewrite Hcall.
  unfold bind at 1. unfold getitem at 1. rewrite Hfun.
  simpl. unfold bind at 1. unfold iterate.
  destruct v as [ | b | z | lit | s | l | m | n ver | n val ];
    try (by eexists).
  - destruct s as [|c rest]; [done|]. simpl. by eexists.
  - by destruct (Hlist l).
  - simpl. destruct (map_to_list m) as [|[k x] rest] eqn:Hm.
    + apply map_to_list_empty_iff in Hm. by subst m.
    + simpl. by eexists.
Qed.

(** A single function given as a mapping instead of a list of mappings. *)
Lemma get_site_info_functions_not_a_list_witness :
  exists why,
    get_site_info
      (Samples.answering
         (<["functions" := PDict {[ "name" := PStr "f"; "version" := PStr "1" ]}]>
            Samples.full_response)) []
    = (Raise (TypeError why), [] ++ [wsfunction_site_info]).
Proof.
  refine (get_site_info_functions_not_a_list
            (Samples.answering
               (<["functions" := PDict {[ "name" := PStr "f";
                                          "version" := PStr "1" ]}]>
                  Samples.full_response)) []
            (<["functions" := PDict {[ "name" := PStr "f";
                                       "version" := PStr "1" ]}]>
               Samples.full_response)
            (PDict {[ "name" := PStr "f"; "version" := PStr "1" ]})
            _ _ _ _ _);
    first [ discriminate
          | vm_compute; reflexivity
          | intros [= Heq]; apply (f_equal (fun m => m !! "name")) in Heq;
            vm_compute in Heq; discriminate ].
Defined.

End SiteExtra.

(** ** The [site info] command *)

Module SiteCliSpec.
Import Site SiteCli.
Local Open Scope list_scope.

Lemma row_key (C : context) (item : string * pyval) :
  fst (row C item) = fst item.
Proof. destruct item as [k v]. unfold row. simpl. by destruct v. Qed.

Lemma SiteInfo_items_keys (site_info : SiteInfo) :
  fst <$> SiteInfo_items site_info = SiteInfo_fields.
Proof. destruct site_info. reflexivity. Qed.

Lemma SiteInfo_items_lists (site_info : SiteInfo) :
  ("functions", functions site_info) ∈ SiteInfo_items site_info
  /\ ("advancedfeatures", advancedfeatures site_info)
     ∈ SiteInfo_items site_info.
Proof.
  split; apply list_elem_of_lookup.
  - exists 9%nat. reflexivity.
  - exists 15%nat. reflexivity.
Qed.

(** X13. When the site information is obtained, [site info] without
    [--json] prints one table and nothing else; it has one row per declared
    [SiteInfo] field, in declaration order, and the rows of [functions] and
    [advancedfeatures] show how many elements the platform listed. *)
Theorem info_table (C : context) (ms : session_t) (s : store)
    (site_info : SiteInfo) (calls' : list string) :
  moodle_session_get C = Return ms ->
  get_site_info ms (calls s) = (Return site_info, calls') ->
  exists (rows : list (string * string)) (d : gmap string pyval)
         (raw_functions raw_features : pyval) (fs gs : list pyval),
    info C false s
      = (Return tt,
         Store calls'
               (printed s ++ [OutTable "Site Info" ["Property"; "Value"] rows]))
    /\ fst <$> rows = SiteInfo_fields
    /\ ms (calls s) wsfunction_site_info = Return (PDict d)
    /\ d !! "functions" = Some raw_functions
    /\ elements raw_functions = Some fs
    /\ ("functions", (pretty (length fs) ++ " items")%string) ∈ rows
    /\ d !! "advancedfeatures" = Some raw_features
    /\ elements raw_features = Some gs
    /\ ("advancedfeatures", (pretty (length gs) ++ " items")%string) ∈ rows.
Proof.
  intros Hms Hrun.
  pose proof Hrun as Hfacts.
  apply SiteSpec.get_site_info_Return in Hfacts
    as (_ & d & rf & ra & fs & gs & funs & feats & Hcall & Hfun & Hfs
        & Hfuns & Hadv & Hgs & Hfeats & _ & Hdict).
  destruct (SiteSpec.SiteInfo_dict_functions site_info) as [Hf Ha].
  rewrite Hdict in Hf, Ha.
  rewrite lookup_insert_ne, lookup_insert_eq in Hf by done.
  rewrite lookup_insert_eq in Ha.
  injection Hf as Hf. injection Ha as Ha.
  destruct (SiteInfo_items_lists site_info) as [Hinf Hina].
  exists (row C <$> SiteInfo_items site_info), d, rf, ra, fs, gs.
  split.
  { unfold info, bind, answer, on_calls, console_print.
    rewrite Hms, Hrun. reflexivity. }
  split.
  { rewrite <- list_fmap_compose.
    rewrite <- (SiteInfo_items_keys site_info).
    apply list_fmap_ext. intros _ item _. apply row_key. }
  do 3 (split; [done|]).
  split.
  { apply (list_elem_of_fmap_2' (row C) _ _ _ Hinf).
    unfold row. simpl. rewrite <- Hf.
    by rewrite (Forall2_length _ _ _ Hfuns). }
  do 2 (split; [done|]).
  apply (list_elem_of_fmap_2' (row C) _ _ _ Hina).
  unfold row. simpl. rewrite <- Ha.
  by rewrite (Forall2_length _ _ _ Hfeats).
Qed.

(** The table printed for the complete answer. *)
Lemma info_table_witness :
  exists (rows : list (string * string)) (d : gmap string pyval)
         (raw_functions raw_features : pyval) (fs gs : list pyval),
    info (Samples.context_of Site.Samples.full_response) false Samples.start
      = (Return tt,
         Store [wsfunction_site_info]
               (printed Samples.start
                ++ [OutTable "Site Info" ["Property"; "Value"] rows]))
    /\ fst <$> rows = SiteInfo_fields
    /\ Site.Samples.answering Site.Samples.full_response
         (calls Samples.start) wsfunction_site_info = Return (PDict d)
    /\ d !! "functions" = Some raw_functions
    /\ elements raw_functions = Some fs
    /\ ("functions", (pretty (length fs) ++ " items")%string) ∈ rows
    /\ d !! "advancedfeatures" = Some raw_features
    /\ elements raw_features = Some gs
    /\ ("advancedfeatures", (pretty (length gs) ++ " items")%string) ∈ rows.
Proof.
  refine (info_table (Samples.context_of Site.Samples.full_response)
            (Site.Samples.answering Site.Samples.full_response) Samples.start
            Site.Samples.full_info [wsfunction_site_info] _ _).
  - reflexivity.
  - vm_compute. reflexivity.
Defined.

Example info_table_rows :
  printed (snd (info (Samples.context_of Site.Samples.full_response) false
                  Samples.start))
  !! 0%nat
  = Some (OutTable "Site Info" ["Property"; "Value"]
            [ ("sitename", "Moodle"); ("username", "admin");
              ("firstname", "Admin"); ("lastname", "User");
              ("fullname", "Admin User"); ("lang", "en"); ("userid", "2");
              ("siteurl", "https://moodle.example");
              ("userpictureurl", "https://moodle.example/pix/u/f1.png");
              ("functions", "1 items"); ("downloadfiles", "1");
              ("uploadfiles", "1"); ("release", "4.5");
              ("version", "2024100700"); ("mobilecssurl", "");
              ("advancedfeatures", "1 items");
              ("usercanmanageownfiles", "True"); ("userquota", "0");
              ("usermaxuploadfilesize", "-1"); ("userhomepage", "1");
              ("userprivateaccesskey", "key"); ("siteid", "1");
              ("sitecalendartype", "gregorian");
              ("usercalendartype", "gregorian");
              ("userissiteadmin", "True"); ("theme", "boost");
              ("limitconcurrentlogins", "0"); ("policyagreed", "0") ]).
Proof. vm_compute. reflexivity. Qed.

(** X14. A field that the platform adds to its answer breaks the command in
    both output modes: it raises after the single web-service call and
    prints nothing. *)
Theorem info_extra_field (C : context) (as_json : bool) (ms : session_t)
    (s : store) (d : gmap string pyval) (k : string) :
  moodle_session_get C = Return ms ->
  ms (calls s) wsfunction_site_info = Return (PDict d) ->
  is_Some (d !! k) ->
  k ∉ SiteInfo_fields ->
  exists e,
    info C as_json s
    = (Raise e, Store (calls s ++ [wsfunction_site_info]) (printed s)).
Proof.
  intros Hms Hcall Hk Hout.
  pose proof (SiteExtra.get_site_info_store ms (calls s)) as Hstore.
  destruct (get_site_info ms (calls s)) as [[site_info|e] calls'] eqn:Hrun;
    simpl in Hstore; subst calls'.
  - exfalso.
    apply SiteSpec.get_site_info_Return in Hrun
      as (_ & d' & rf & ra & fs & gs & funs & feats & Hcall' & _ & _ & _ & _
          & _ & _ & [Hin _] & _).
    rewrite Hcall in Hcall'. injection Hcall' as <-.
    apply Hout, Hin.
    destruct (decide (k = "advancedfeatures")) as [->|Ha];
      [by rewrite lookup_insert_eq|].
    rewrite lookup_insert_ne by done.
    destruct (decide (k = "functions")) as [->|Hb];
      [by rewrite lookup_insert_eq|].
    by rewrite lookup_insert_ne.
  - exists e. unfold info, bind, answer, on_calls. by rewrite Hms, Hrun.
Qed.

(** The complete answer with one more key, asked for as JSON. *)
Lemma info_extra_field_witness :
  exists e,
    info (Samples.context_of
            (<["serverversion" := PInt 5]> Site.Samples.full_response))
         true Samples.start
    = (Raise e,
       Store (calls Samples.start ++ [wsfunction_site_info])
             (printed Samples.start)).
Proof.
  refine (info_extra_field
            (Samples.context_of
               (<["serverversion" := PInt 5]> Site.Samples.full_response))
            true
            (Site.Samples.answering
               (<["serverversion" := PInt 5]> Site.Samples.full_response))
            Samples.start
            (<["serverversion" := PInt 5]> Site.Samples.full_response)
            "serverversion" _ _ _ _).
  - reflexivity.
  - reflexivity.
  - exists (PInt 5). vm_compute. reflexivity.
  - apply (bool_decide_unpack _). vm_compute. exact I.
Defined.

End SiteCliSpec.

(** ** More on the example script *)

Module ScriptExtra.
Import ExampleScript ScriptAux.
Local Open Scope list_scope.

(** What the main loop adds: events that are no deletion, at most one
    creation per index, and only IDs that [create_course] returned. *)
Lemma main_loop_effects (P : platform) (indices : list nat) (s : state) :
  exists (evs : list event) (new : list Z),
    log (snd (main_loop P indices s)) = log s ++ evs
    /\ Forall (fun ev => is_delete ev = false) evs
    /\ created_course_ids (snd (main_loop P indices s))
       = created_course_ids s ++ new
    /\ Forall (fun c => exists l n, create_course P l n = Return c) new
    /\ (length new <= length indices)%nat.
Proof.
  revert s. induction indices as [|i indices IH]; intros s.
  - exists [], []. simpl. rewrite !app_nil_r. repeat split; (done || lia).
  - simpl. unfold bind, console_print, emit, external, append_created. simpl.
    destruct (create_course P _ _) as [course_id|e] eqn:Hcreate; simpl.
    + destruct (populate P _ _) as [[]|e]; simpl.
      * destruct (IH (State (created_course_ids s ++ [course_id])
                        ((((log s ++ [EvPrint (MsgCreating (i + 1))])
                             ++ [EvCreate (i + 1)])
                            ++ [EvPrint (MsgCreated course_id)])
                           ++ [EvPopulate course_id])))
          as (evs & new & Hlog & Hevs & Hids & Hnew & Hlen).
        simpl in Hlog, Hids.
        exists ([EvPrint (MsgCreating (i + 1)); EvCreate (i + 1);
                 EvPrint (MsgCreated course_id); EvPopulate course_id] ++ evs),
               (course_id :: new).
        rewrite Hlog, Hids. rewrite <- !app_assoc. simpl.
        repeat split; try done.
        -- by repeat constructor.
        -- constructor; [by eauto | done].
        -- lia.
      * eexists [_; _; _; _], [course_id]. rewrite <- !app_assoc. simpl.
        repeat split; try done.
        -- by repeat constructor.
        -- constructor; [by eauto | done].
        -- lia.
    + eexists [_; _], []. rewrite <- !app_assoc, app_nil_r. simpl.
      repeat split; try done.
      -- by repeat constructor.
      -- lia.
Qed.

(** What the deletions add: nothing that creates or fills a course. *)
Lemma delete_each_events (P : platform) (ids : list Z) (s : state) :
  exists evs : list event,
    log (snd (delete_each P ids s)) = log s ++ evs
    /\ Forall (fun ev => is_main_call ev = false) evs.
Proof.
  revert s. induction ids as [|c ids IH]; intros s.
  - exists []. simpl. by rewrite app_nil_r.
  - simpl. unfold bind at 1.
    unfold try_except, bind, console_print, emit, external. simpl.
    destruct (delete_course P _ c) as [[]|e]; simpl.
    + destruct (IH (State (created_course_ids s)
                      (((log s ++ [EvPrint (MsgDeleting c)]) ++ [EvDelete c])
                         ++ [EvPrint (MsgDeleted c)])))
        as (evs & Hlog & Hevs). simpl in Hlog.
      exists ([EvPrint (MsgDeleting c); EvDelete c; EvPrint (MsgDeleted c)]
              ++ evs).
      rewrite Hlog. rewrite <- !app_assoc. simpl.
      split; [done | by repeat constructor].
    + destruct (isinstance_Exception e); simpl.
      * destruct (IH (State (created_course_ids s)
                        (((log s ++ [EvPrint (MsgDeleting c)]) ++ [EvDelete c])
                           ++ [EvPrint (MsgDeleteError c e)])))
          as (evs & Hlog & Hevs). simpl in Hlog.
        exists ([EvPrint (MsgDeleting c); EvDelete c;
                 EvPrint (MsgDeleteError c e)] ++ evs).
        rewrite Hlog. rewrite <- !app_assoc. simpl.
        split; [done | by repeat constructor].
      * eexists [_; _]. rewrite <- !app_assoc. simpl.
        split; [done | by repeat constructor].
Qed.

Lemma cleanup_events (P : platform) (s : state) :
  exists evs : list event,
    log (snd (cleanup P s)) = log s ++ evs
    /\ Forall (fun ev => is_main_call ev = false) evs.
Proof.
  unfold cleanup. destruct (created_course_ids s) as [|c ids] eqn:Hids.
  - exists []. simpl. by rewrite app_nil_r.
  - unfold bind at 1. unfold console_print at 1, emit. unfold bind at 1.
    destruct (delete_each_events P (c :: ids)
                (State (created_course_ids s)
                       (log s ++ [EvPrint MsgCleanupPhase])))
      as (evs & Hlog & Hevs).
    destruct (delete_each P (c :: ids)
                (State (created_course_ids s)
                       (log s ++ [EvPrint MsgCleanupPhase])))
      as [[[]|e] s1]; cbn [snd log] in Hlog.
    + exists ([EvPrint MsgCleanupPhase] ++ evs ++ [EvPrint MsgCleanupCompleted]).
      unfold console_print, emit. cbn [snd log].
      rewrite Hlog. rewrite <- !app_assoc. split; [done|].
      constructor; [done|]. apply Forall_app. split; [done|].
      by repeat constructor.
    + exists ([EvPrint MsgCleanupPhase] ++ evs). cbn [snd log].
      rewrite Hlog. rewrite <- !app_assoc. split; [done|].
      by constructor.
Qed.

(** X15. In the log of the guarded part of [main], every call that creates
    or fills a course comes before every call that deletes one: nothing is
    deleted while the main phase runs and nothing is created during the
    cleanup, whatever the platform answers or raises. *)
Theorem guarded_run_order (P : platform) (s : state) :
  exists before after : list event,
    log (snd (guarded_run P s)) = log s ++ before ++ after
    /\ Forall (fun ev => is_delete ev = false) before
    /\ Forall (fun ev => is_main_call ev = false) after.
Proof.
  destruct (main_loop_effects P (seq 0 NUM_COURSES_TO_CREATE) s)
    as (evs & new & Hlog & Hevs & _).
  fold (main_phase P) in Hlog.
  unfold guarded_run, try_finally, try_except.
  destruct (main_phase P s) as [[[]|e] s1]; simpl in Hlog.
  - destruct (cleanup_events P s1) as (after & Hafter & Hno).
    destruct (cleanup P s1) as [[[]|e] s2]; simpl in Hafter;
      exists evs, after; cbn [snd log]; by rewrite Hafter, Hlog, app_assoc.
  - destruct (isinstance_Exception e).
    + unfold console_print, emit.
      destruct (cleanup_events P
                  (State (created_course_ids s1)
                         (log s1 ++ [EvPrint (MsgExecutionError e)])))
        as (after & Hafter & Hno). simpl in Hafter.
      destruct (cleanup P _) as [[[]|e'] s2]; simpl in Hafter;
        exists (evs ++ [EvPrint (MsgExecutionError e)]), after;
        cbn [snd log];
        (split; [by rewrite Hafter, Hlog, <- !app_assoc|]);
        (split; [apply Forall_app; split; [done | by repeat constructor]
                | done]).
    + destruct (cleanup_events P s1) as (after & Hafter & Hno).
      destruct (cleanup P s1) as [[[]|e'] s2]; simpl in Hafter;
        exists evs, after; cbn [snd log]; by rewrite Hafter, Hlog, app_assoc.
Qed.

Lemma create_attempts_app (l1 l2 : list event) :
  create_attempts (l1 ++ l2) = create_attempts l1 ++ create_attempts l2.
Proof. unfold create_attempts. apply omap_app. Qed.

(** X16. Without the fixtures directory, or when the login raises, [main]
    touches no course: [create_course] and [delete_course] are never called
    and no course ID is recorded. *)
Theorem main_without_session (P : platform) (s : state) :
  fixtures_is_dir P = false
  \/ (exists e, login P (log s ++ [EvPrint MsgStarting]) = Raise e) ->
  create_attempts (log (snd (main P s))) = create_attempts (log s)
  /\ delete_attempts (log (snd (main P s))) = delete_attempts (log s)
  /\ created_course_ids (snd (main P s)) = created_course_ids s.
Proof.
  intros Hno.
  unfold main. unfold bind at 1. unfold console_print at 1, emit. simpl.
  destruct (fixtures_is_dir P) eqn:Hdir; simpl.
  - destruct Hno as [?|[e He]]; [done|].
    unfold bind at 1. unfold try_except, bind, external. simpl. rewrite He.
    destruct (isinstance_MoodleSessionError _ e); simpl;
      unfold console_print, emit; simpl;
      rewrite !create_attempts_app, !ScriptSpec.delete_attempts_app; simpl;
      by rewrite !app_nil_r.
  - unfold console_print, emit. simpl.
    rewrite !create_attempts_app, !ScriptSpec.delete_attempts_app. simpl.
    by rewrite !app_nil_r.
Qed.

(** A refused login. *)
Lemma main_without_session_witness :
  create_attempts (log (snd (main refusing_platform Samples.start)))
    = create_attempts (log Samples.start)
  /\ delete_attempts (log (snd (main refusing_platform Samples.start)))
     = delete_attempts (log Samples.start)
  /\ created_course_ids (snd (main refusing_platform Samples.start))
     = created_course_ids Samples.start.
Proof.
  refine (main_without_session refusing_platform Samples.start _).
  right. exists (Error "MoodleSessionError"). reflexivity.
Defined.




Example derived_login_error_is_caught :
  main expiring_platform Samples.start
  = (Return tt,
     State [] [ EvPrint MsgStarting; EvLogin;
                EvPrint (MsgLoginError (Error "MoodleTokenExpired")) ]).
Proof. vm_compute. reflexivity. Qed.

Example other_login_error_propagates :
  fst (main {| fixtures_is_dir := true;
               login := fun _ => Raise (Error "ConnectionError");
               create_course := fun _ _ => Return 7;
               populate := fun _ _ => Return tt;
               delete_course := fun _ _ => Return tt;
               session_error_classes := ["MoodleTokenExpired"] |}
            Samples.start)
  = Raise (Error "ConnectionError").
Proof. vm_compute. reflexivity. Qed.

Lemma created_by_app (P : platform) (before l1 l2 : list event) :
  created_by P before (l1 ++ l2)
  = created_by P before l1 ++ created_by P (before ++ l1) l2.
Proof.
  revert before. induction l1 as [|ev l1 IH]; intros before.
  - simpl. by rewrite app_nil_r.
  - simpl. rewrite IH. rewrite <- !app_assoc. simpl. done.
Qed.

Lemma created_by_no_create (P : platform) (before evs : list event) :
  Forall (fun ev => is_main_call ev = false) evs ->
  created_by P before evs = [].
Proof.
  intros Hevs. revert before.
  induction Hevs as [|ev evs Hev _ IH]; intros before; [done|].
  simpl. rewrite IH. by destruct ev.
Qed.

Lemma delete_attempts_no_delete (evs : list event) :
  Forall (fun ev => is_delete ev = false) evs -> delete_attempts evs = [].
Proof.
  induction 1 as [|ev evs Hev _ IH]; [done|].
  change (delete_attempts (ev :: evs))
    with (delete_attempts ([ev] ++ evs)).
  rewrite ScriptSpec.delete_attempts_app, IH. by destruct ev.
Qed.

Lemma created_by_create (P : platform) (before : list event) (n : nat)
    (rest : list event) :
  created_by P before (EvPrint (MsgCreating n) :: EvCreate n :: rest)
  = match create_course P (before ++ [EvPrint (MsgCreating n)]) n with
    | Return c => [c]
    | Raise _ => []
    end
    ++ created_by P ((before ++ [EvPrint (MsgCreating n)]) ++ [EvCreate n])
         rest.
Proof. reflexivity. Qed.

(** The main loop records exactly the IDs that its own [create_course] calls
    returned. *)
Lemma main_loop_created (P : platform) (indices : list nat) (s : state) :
  exists evs : list event,
    log (snd (main_loop P indices s)) = log s ++ evs
    /\ Forall (fun ev => is_delete ev = false) evs
    /\ created_course_ids (snd (main_loop P indices s))
       = created_course_ids s ++ created_by P (log s) evs
    /\ (length (created_by P (log s) evs) <= length indices)%nat.
Proof.
  revert s. induction indices as [|i indices IH]; intros s.
  - exists []. simpl. rewrite !app_nil_r. repeat split; (done || lia).
  - simpl. unfold bind, console_print, emit, external, append_created. simpl.
    destruct (create_course P (log s ++ [EvPrint (MsgCreating (i + 1))])
                (i + 1)%nat) as [course_id|e] eqn:Hcreate; simpl.
    + destruct (populate P _ _) as [[]|e]; simpl.
      * destruct (IH (State (created_course_ids s ++ [course_id])
                        ((((log s ++ [EvPrint (MsgCreating (i + 1))])
                             ++ [EvCreate (i + 1)])
                            ++ [EvPrint (MsgCreated course_id)])
                           ++ [EvPopulate course_id])))
          as (evs & Hlog & Hevs & Hids & Hlen).
        cbn [log created_course_ids] in Hlog, Hids, Hlen.
        exists (EvPrint (MsgCreating (i + 1)) :: EvCreate (i + 1)
                :: EvPrint (MsgCreated course_id) :: EvPopulate course_id
                :: evs).
        split; [by rewrite Hlog, <- !app_assoc|].
        split; [by repeat constructor|].
        rewrite created_by_create, Hcreate. cbn [created_by app].
        split; [by rewrite Hids, <- !app_assoc|].
        simpl. lia.
      * exists [EvPrint (MsgCreating (i + 1)); EvCreate (i + 1);
                EvPrint (MsgCreated course_id); EvPopulate course_id].
        split; [by rewrite <- !app_assoc|].
        split; [by repeat constructor|].
        rewrite created_by_create, Hcreate. cbn [created_by app].
        split; [done|]. simpl. lia.
    + exists [EvPrint (MsgCreating (i + 1)); EvCreate (i + 1)].
      split; [by rewrite <- !app_assoc|].
      split; [by repeat constructor|].
      rewrite created_by_create, Hcreate. cbn [created_by app].
      split; [by rewrite app_nil_r|]. simpl. lia.
Qed.

(** What the cleanup adds: deletions of the recorded IDs, in order, and no
    creation. *)
Lemma cleanup_deletes_recorded (P : platform) (s : state) :
  (forall l c e, delete_course P l c = Raise e -> isinstance_Exception e = true) ->
  exists evs : list event,
    log (snd (cleanup P s)) = log s ++ evs
    /\ Forall (fun ev => is_main_call ev = false) evs
    /\ delete_attempts evs = created_course_ids s.
Proof.
  intros Hexc.
  destruct (cleanup_events P s) as (evs & Hlog & Hevs).
  destruct (ScriptSpec.cleanup_spec P s Hexc) as (s' & Hrun & _ & Hdel).
  rewrite Hrun in Hlog. simpl in Hlog.
  exists evs. rewrite Hrun. simpl. split; [done|]. split; [done|].
  rewrite Hlog, ScriptSpec.delete_attempts_app in Hdel.
  by apply app_inv_head in Hdel.
Qed.

(** X18. Provided [delete_course] raises only instances of [Exception]: the
    IDs that the cleanup passes to [delete_course] are exactly, and in the
    same order, the IDs that the [create_course] calls of this very run
    returned; there are at most [NUM_COURSES_TO_CREATE] of them. *)
Theorem guarded_run_deletes_created (P : platform) (s : state) :
  (forall l c e, delete_course P l c = Raise e -> isinstance_Exception e = true) ->
  created_course_ids s = [] ->
  exists evs : list event,
    log (snd (guarded_run P s)) = log s ++ evs
    /\ delete_attempts evs = created_by P (log s) evs
    /\ (length (delete_attempts evs) <= NUM_COURSES_TO_CREATE)%nat.
Proof.
  intros Hexc Hempty.
  destruct (main_loop_created P (seq 0 NUM_COURSES_TO_CREATE) s)
    as (evs & Hlog & Hevs & Hids & Hlen).
  fold (main_phase P) in Hlog, Hids.
  rewrite Hempty in Hids. simpl in Hids. rewrite length_seq in Hlen.
  unfold guarded_run, try_finally, try_except.
  destruct (main_phase P s) as [r s1]. cbn [snd] in Hlog, Hids.
  assert (forall (extra : list event) (s1' : state),
            Forall (fun ev => is_main_call ev = false) extra ->
            Forall (fun ev => is_delete ev = false) extra ->
            log s1' = log s1 ++ extra ->
            created_course_ids s1' = created_course_ids s1 ->
            exists evs' : list event,
              log (snd (cleanup P s1')) = log s ++ evs'
              /\ delete_attempts evs' = created_by P (log s) evs'
              /\ (length (delete_attempts evs') <= NUM_COURSES_TO_CREATE)%nat)
    as Hfinish.
  { intros extra s1' Hx1 Hx2 Hlog' Hids'.
    destruct (cleanup_deletes_recorded P s1' Hexc) as (after & Hafter & Hno & Hdel).
    exists (evs ++ extra ++ after).
    rewrite Hafter, Hlog', Hlog. rewrite <- !app_assoc.
    split; [done|].
    rewrite !ScriptSpec.delete_attempts_app, !created_by_app.
    rewrite (delete_attempts_no_delete evs Hevs).
    rewrite (delete_attempts_no_delete extra Hx2).
    rewrite (created_by_no_create P _ extra Hx1).
    rewrite (created_by_no_create P _ after Hno).
    rewrite Hdel, Hids', Hids. simpl. rewrite !app_nil_r.
    split; [done | exact Hlen]. }
  destruct r as [[]|e]; simpl.
  - destruct (Hfinish [] s1) as (evs' & Hl & Hd & Hn);
      [done | done | by rewrite app_nil_r | done |].
    destruct (cleanup P s1) as [[[]|e'] s2]; cbn [snd] in Hl |- *; eauto.
  - destruct (isinstance_Exception e).
    + unfold console_print, emit.
      destruct (Hfinish [EvPrint (MsgExecutionError e)]
                  (State (created_course_ids s1)
                         (log s1 ++ [EvPrint (MsgExecutionError e)])))
        as (evs' & Hl & Hd & Hn);
        [by repeat constructor | by repeat constructor | done | done |].
      destruct (cleanup P _) as [[[]|e'] s2]; cbn [snd] in Hl |- *; eauto.
    + destruct (Hfinish [] s1) as (evs' & Hl & Hd & Hn);
        [done | done | by rewrite app_nil_r | done |].
      destruct (cleanup P s1) as [[[]|e'] s2]; cbn [snd] in Hl |- *; eauto.
Qed.

(** The failing run deletes the one course it created. *)
Lemma guarded_run_deletes_created_witness :
  exists evs : list event,
    log (snd (guarded_run Samples.failing_platform Samples.start))
      = log Samples.start ++ evs
    /\ delete_attempts evs
       = created_by Samples.failing_platform (log Samples.start) evs
    /\ (length (delete_attempts evs) <= NUM_COURSES_TO_CREATE)%nat.
Proof.
  refine (guarded_run_deletes_created Samples.failing_platform Samples.start
            _ _).
  - intros l c e [= <-]. reflexivity.
  - reflexivity.
Defined.

Example created_by_failing_run :
  created_by Samples.failing_platform []
    (log (snd (guarded_run Samples.failing_platform Samples.start)))
  = [42].
Proof. vm_compute. reflexivity. Qed.

End ScriptExtra.
